(** * rubicon_ml.viz.dataframe_plot

    A shallow embedding of [DataframePlot] (src/rubicon_ml/viz/dataframe_plot.py):
    the loading step [load_experiment_data], the header of [layout] and the
    render callback [update_dataframe_plot] registered by [register_callbacks].

    Python objects that the module mutates in place and that can be shared
    between widgets (the keyword-options dictionaries) live in a store of
    dictionaries addressed by location; the attributes of [self], the store
    and the log of emitted warnings are threaded through a state-and-exception
    monad.  External collaborators (experiments, logged dataframes, the
    plotting routine, the colour helpers) are records of their observable
    results. *)

From Stdlib Require Import ZArith DecimalString.
From stdpp Require Import gmap strings list fin_maps.

(** ** Python values and exceptions *)

(** Exceptions the module raises itself or lets through.  [Foreign] stands
    for any other class raised by a collaborator, including the ones that do
    not derive from [Exception] (a bare [except:] catches those too). *)
Inductive exn :=
| Exception (msg : string)
| AttributeError
| TypeError
| ValueError
| IndexError
| KeyError (key : string)
| Foreign (cls : string).

Inductive result (A : Type) :=
| Ok (a : A)
| Raise (e : exn).
Arguments Ok {A} a.
Arguments Raise {A} e.

(** An instance attribute: never assigned, assigned [None], or holding a value. *)
Inductive attr (A : Type) :=
| Unset
| PyNone
| Val (a : A).
Arguments Unset {A}.
Arguments PyNone {A}.
Arguments Val {A} a.

(** [str(n)] for a length. *)
Definition str_of_nat (n : nat) : string := NilZero.string_of_uint (Nat.to_uint n).

(** [s[:n]] on a string. *)
Fixpoint str_take (n : nat) (s : string) : string :=
  match n, s with
  | S n', String c s' => String c (str_take n' s')
  | _, _ => EmptyString
  end.

(** ** pandas *)

(** A cell of a table.  Numeric payloads are opaque to this module; only the
    string cells of the [experiment_id] column are ever inspected. *)
Inductive cell :=
| CStr (s : string)
| CNum (z : Z)
| CNaN.

#[global] Instance cell_eq_dec : EqDecision cell.
Proof. solve_decision. Defined.

Module pd.

(** A dataframe: its ordered column labels and its ordered rows, a row
    mapping a label to a cell (an absent label reads as a missing value).
    Index labels are left out: [reset_index(drop=True)] discards them and
    nothing in this module reads them. *)
Record DataFrame := {
  columns : list string;
  rows : list (gmap string cell)
}.

(** [df[c] = v] with a scalar [v]: broadcast over the rows; a new label
    is appended, an existing one keeps its place. *)
Definition setitem_columns (cols : list string) (c : string) : list string :=
  if decide (c ∈ cols) then cols else cols ++ [c].

Definition setitem (df : DataFrame) (c : string) (v : cell) : DataFrame :=
  {| columns := setitem_columns (columns df) c;
     rows := (λ r, <[c := v]> r) <$> rows df |}.

(** [df.empty]: some axis has length zero. *)
Definition empty (df : DataFrame) : bool :=
  match columns df, rows df with
  | [], _ | _, [] => true
  | _, _ => false
  end.

(** [pd.concat([a, b])]: rows of [a] then rows of [b]; labels of [a] then
    the labels only [b] has. *)
Definition concat (a b : DataFrame) : DataFrame :=
  {| columns := columns a ++ filter (λ c, c ∉ columns a) (columns b);
     rows := rows a ++ rows b |}.

(** [df.reset_index(drop=True)]. *)
Definition reset_index (df : DataFrame) : DataFrame := df.

(** One entry of the mask [df[c].isin(values)]. *)
Definition isin (c : string) (values : list string) (r : gmap string cell) : bool :=
  match r !! c with
  | Some (CStr s) => bool_decide (s ∈ values)
  | _ => false
  end.

(** [df[df[c].isin(values)]]; [df[c]] is a [KeyError] for an unknown label. *)
Definition getitem_isin (df : DataFrame) (c : string) (values : list string)
  : result DataFrame :=
  if decide (c ∈ columns df)
  then Ok {| columns := columns df;
             rows := filter (λ r, isin c values r = true) (rows df) |}
  else Raise (KeyError c).

End pd.

(** ** Collaborators *)

(** A logged dataframe entity: [get_data()] returns the table or raises. *)
Module Dataframe.
Record t := { get_data : result pd.DataFrame }.
End Dataframe.

(** An experiment: its identifier and [dataframe(name=...)]. *)
Module Experiment.
Record t := {
  id : string;
  dataframe : string → result Dataframe.t
}.
End Experiment.

(** A plotly figure: its traces (a trace's [name] is its legend label and is
    [None] unless set) and the two layout entries this module writes. *)
Record Trace := {
  name : option string;
  points : list (cell * cell)
}.

Record Figure := {
  data : list Trace;
  margin_t : option Z;
  plot_bgcolor : option string
}.

(** A value of the keyword options passed on to the plotting routine. *)
Inductive kwarg :=
| KwStr (s : string)
| KwSeq (l : list string)
| KwNum (z : Z)
| KwBool (b : bool).

#[global] Instance kwarg_eq_dec : EqDecision kwarg.
Proof. solve_decision. Defined.

(** What [rubicon_ml.viz.common.colors] exports to this module.  The file is
    not part of the sources at hand, so its three names are parameters. *)
Class Colors := {
  get_rubicon_colorscale : nat → list string;
  light_blue : string;
  plot_background_blue : string
}.

(** A value Dash hands to a callback: [None] or a list of row ids. *)
Inductive dash_value :=
| DNone
| DList (l : list string).

(** ** The widget *)

Definition loc := nat.

Record DataframePlot := {
  dataframe_name : string;
  experiments : option (list Experiment.t);
  plotting_func :
    pd.DataFrame → option string → option string → gmap string kwarg → result Figure;
  plotting_func_kwargs : loc;
  x : option string;
  y : option string;
  data_df : attr pd.DataFrame
}.

(** The state a method runs in: [self], the store of dictionaries and the
    warnings emitted so far. *)
Record State := {
  self : DataframePlot;
  dicts : gmap loc (gmap string kwarg);
  warnings_log : list string
}.

(** The one dictionary built when [def __init__(..., plotting_func_kwargs={}, ...)]
    is evaluated; every widget constructed without the argument refers to it. *)
Definition default_kwargs : loc := 0.

Definition initial_dicts : gmap loc (gmap string kwarg) := {[ default_kwargs := ∅ ]}.

(** [DataframePlot.__init__]; [kw = None] stands for an omitted
    [plotting_func_kwargs]. *)
Definition init (name : string) (exps : option (list Experiment.t))
    (pf : pd.DataFrame → option string → option string → gmap string kwarg → result Figure)
    (kw : option loc) (x0 y0 : option string) : DataframePlot :=
  {| dataframe_name := name;
     experiments := exps;
     plotting_func := pf;
     plotting_func_kwargs := default default_kwargs kw;
     x := x0;
     y := y0;
     data_df := Unset |}.

(** ** A state-and-exception monad for method bodies *)

Definition M (A : Type) : Type := State → State * result A.

#[global] Instance M_ret : MRet M := λ A a s, (s, Ok a).

#[global] Instance M_bind : MBind M := λ A B f m s,
  match m s with
  | (s', Ok a) => f a s'
  | (s', Raise e) => (s', Raise e)
  end.

Definition raise {A} (e : exn) : M A := λ s, (s, Raise e).

(** Lift the result of calling a collaborator. *)
Definition call {A} (r : result A) : M A := λ s, (s, r).

(** [try: m  except: h]; a bare [except] catches every exception.  The state
    changes made by [m] before it raised stay. *)
Definition try_except {A} (m : M A) (h : M A) : M A := λ s,
  match m s with
  | (s', Ok a) => (s', Ok a)
  | (s', Raise _) => h s'
  end.

(** Run [m] inside a [try] and hand its result to the continuation. *)
Definition attempt {A} (m : M A) : M (result A) := λ s,
  let '(s', r) := m s in (s', Ok r).

Definition get_self : M DataframePlot := λ s, (s, Ok (self s)).

Definition with_self (f : DataframePlot → DataframePlot) (s : State) : State :=
  {| self := f (self s); dicts := dicts s; warnings_log := warnings_log s |}.

Definition set_self (f : DataframePlot → DataframePlot) : M unit := λ s,
  (with_self f s, Ok tt).

Definition set_x (v : option string) (w : DataframePlot) : DataframePlot :=
  {| dataframe_name := dataframe_name w; experiments := experiments w;
     plotting_func := plotting_func w; plotting_func_kwargs := plotting_func_kwargs w;
     x := v; y := y w; data_df := data_df w |}.

Definition set_y (v : option string) (w : DataframePlot) : DataframePlot :=
  {| dataframe_name := dataframe_name w; experiments := experiments w;
     plotting_func := plotting_func w; plotting_func_kwargs := plotting_func_kwargs w;
     x := x w; y := v; data_df := data_df w |}.

Definition set_data_df (v : attr pd.DataFrame) (w : DataframePlot) : DataframePlot :=
  {| dataframe_name := dataframe_name w; experiments := experiments w;
     plotting_func := plotting_func w; plotting_func_kwargs := plotting_func_kwargs w;
     x := x w; y := y w; data_df := v |}.

(** [warnings.warn(msg)] under the default filter: the warning is recorded. *)
Definition with_warning (msg : string) (s : State) : State :=
  {| self := self s; dicts := dicts s; warnings_log := warnings_log s ++ [msg] |}.

Definition warn (msg : string) : M unit := λ s, (with_warning msg s, Ok tt).

(** The dictionary an attribute refers to. *)
Definition deref (l : loc) (s : State) : gmap string kwarg := default ∅ (dicts s !! l).

Definition read_kwargs : M (gmap string kwarg) := λ s,
  (s, Ok (deref (plotting_func_kwargs (self s)) s)).

(** [self.plotting_func_kwargs[k] = v]: the dictionary is updated in place. *)
Definition with_kwarg (k : string) (v : kwarg) (s : State) : State :=
  let l := plotting_func_kwargs (self s) in
  {| self := self s; dicts := <[l := <[k := v]> (deref l s)]> (dicts s);
     warnings_log := warnings_log s |}.

Definition kwargs_setitem (k : string) (v : kwarg) : M unit := λ s,
  (with_kwarg k v s, Ok tt).

(** [for a in l: body(a)]. *)
Fixpoint for_each {A} (l : list A) (body : A → M unit) : M unit :=
  match l with
  | [] => mret tt
  | a :: l' => body a ;; for_each l' body
  end.

(** [self.experiments] where a list is required ([for ... in], [len]). *)
Definition experiments_list : M (list Experiment.t) :=
  w ← get_self;
  match experiments w with
  | Some es => mret es
  | None => raise TypeError
  end.

(** [seq[i]] on a sequence of labels. *)
Definition index (l : list string) (i : nat) : M string :=
  match l !! i with
  | Some c => mret c
  | None => raise IndexError
  end.

(** ** DataframePlot *)

Section DataframePlot.
Context `{Colors}.

Definition missing_warning (experiment : Experiment.t) : string :=
  "Experiment " +:+ Experiment.id experiment +:+ " does not have any dataframes logged to it.".

Definition not_found_message (name : string) : string :=
  "No dataframe with name " +:+ name +:+ " found!".

(** [self.data_df.empty]. *)
Definition data_df_empty : M bool :=
  w ← get_self;
  match data_df w with
  | Val d => mret (pd.empty d)
  | PyNone | Unset => raise AttributeError
  end.

(** The condition [self.data_df == None] of an [if]: on a dataframe [==]
    is elementwise and the truth value of its result is a [ValueError]. *)
Definition data_df_eq_None : M bool :=
  w ← get_self;
  match data_df w with
  | PyNone => mret true
  | Val _ => raise ValueError
  | Unset => raise AttributeError
  end.

(** Lines 107-108: [if self.x is None: self.x = data_df.columns[0]]. *)
Definition default_x (data_df' : pd.DataFrame) : M unit :=
  w ← get_self;
  if x w is None
  then c ← index (pd.columns data_df') 0; set_self (set_x (Some c))
  else mret tt.

(** Lines 110-111: [if self.y is None: self.y = data_df.columns[1]]. *)
Definition default_y (data_df' : pd.DataFrame) : M unit :=
  w ← get_self;
  if y w is None
  then c ← index (pd.columns data_df') 1; set_self (set_y (Some c))
  else mret tt.

(** Lines 113-118: the table is stored or appended, then reindexed. *)
Definition accumulate (data_df' : pd.DataFrame) : M unit :=
  w ← get_self;
  match data_df w with
  | Unset => raise AttributeError
  | PyNone => set_self (set_data_df (Val (pd.reset_index data_df')))
  | Val acc => set_self (set_data_df (Val (pd.reset_index (pd.concat acc data_df'))))
  end.

(** The body of the loop over [self.experiments] (lines 96-118). *)
Definition load_body (experiment : Experiment.t) : M unit :=
  w ← get_self;
  fetched ← attempt (call (Experiment.dataframe experiment (dataframe_name w)));
  match fetched with
  | Raise _ => warn (missing_warning experiment)
  | Ok dataframe =>
      got ← call (Dataframe.get_data dataframe);
      let data_df' := pd.setitem got "experiment_id" (CStr (Experiment.id experiment)) in
      default_x data_df';;
      default_y data_df';;
      accumulate data_df'
  end.

(** Lines 120-125: defaults written into the keyword options. *)
Definition inject_defaults : M unit :=
  kw ← read_kwargs;
  (if kw !! "color" is None
   then kwargs_setitem "color" (KwStr "experiment_id")
   else mret tt);;
  kw ← read_kwargs;
  (if kw !! "color_discrete_sequence" is None
   then es ← experiments_list;
        kwargs_setitem "color_discrete_sequence"
          (KwSeq (get_rubicon_colorscale (length es)))
   else mret tt).

(** Lines 126-131: the closing check. *)
Definition check_found : M unit :=
  w ← get_self;
  try_except
    (b ← data_df_empty;
     if b : bool then raise (Exception (not_found_message (dataframe_name w))) else mret tt)
    (b ← data_df_eq_None;
     if b : bool then raise (Exception (not_found_message (dataframe_name w))) else mret tt).

Definition load_experiment_data : M unit :=
  set_self (set_data_df PyNone);;
  es ← experiments_list;
  for_each es load_body;;
  inject_defaults;;
  check_found.

(** The f-string shared by [layout] and the callback. *)
Definition header_text (name : string) (k : nat) : string :=
  "showing dataframe '" +:+ name +:+ "' "
  +:+ "over " +:+ str_of_nat k +:+ " experiment"
  +:+ (if decide (k ≠ 1) then "s" else "").

(** The header computed by the [layout] property. *)
Definition layout_header : M string :=
  w ← get_self;
  es ← experiments_list;
  mret (header_text (dataframe_name w) (length es)).

(** Truth value of a callback argument. *)
Definition truthy (v : dash_value) : bool :=
  match v with
  | DList (_ :: _) => true
  | _ => false
  end.

Definition as_ids (v : dash_value) : list string :=
  match v with
  | DList l => l
  | DNone => []
  end.

(** Lines 154-158. *)
Definition selected_row_ids (link_experiment_table : bool) (args : list dash_value)
  : M (list string) :=
  if link_experiment_table
  then match last args with
       | Some v => mret (if truthy v then as_ids v else [])
       | None => raise IndexError
       end
  else es ← experiments_list; mret (Experiment.id <$> es).

(** [fig.update_layout(margin_t=..., plot_bgcolor=...)]. *)
Definition update_layout (fig : Figure) (mt : Z) (bg : string) : Figure :=
  {| data := data fig; margin_t := Some mt; plot_bgcolor := Some bg |}.

(** Lines 170-171, one trace: [trace.name = trace.name[:7]]. *)
Definition truncate_name (t : Trace) : result Trace :=
  match name t with
  | Some n => Ok {| name := Some (str_take 7 n); points := points t |}
  | None => Raise TypeError
  end.

Fixpoint truncate_names (ts : list Trace) : result (list Trace) :=
  match ts with
  | [] => Ok []
  | t :: ts' =>
      match truncate_name t with
      | Raise e => Raise e
      | Ok t' =>
          match truncate_names ts' with
          | Raise e => Raise e
          | Ok r => Ok (t' :: r)
          end
      end
  end.

(** [self.data_df[self.data_df["experiment_id"].isin(selected_row_ids)]]. *)
Definition filtered_data (selected : list string) : M pd.DataFrame :=
  w ← get_self;
  match data_df w with
  | Unset => raise AttributeError
  | PyNone => raise TypeError
  | Val d => call (pd.getitem_isin d "experiment_id" selected)
  end.

(** The callback registered by [register_callbacks(link_experiment_table)]. *)
Definition update_dataframe_plot (link_experiment_table : bool) (args : list dash_value)
  : M (Figure * string) :=
  selected ← selected_row_ids link_experiment_table args;
  let df_figure_margin := 30%Z in
  w ← get_self;
  table ← filtered_data selected;
  kw ← read_kwargs;
  fig ← call (plotting_func w table (x w) (y w) kw);
  let fig := update_layout fig df_figure_margin plot_background_blue in
  traces ← call (truncate_names (data fig));
  let df_figure :=
    {| data := traces; margin_t := margin_t fig; plot_bgcolor := plot_bgcolor fig |} in
  let header := header_text (dataframe_name w) (length selected) in
  mret (df_figure, header).

End DataframePlot.

(** ** Vocabulary of the statements *)

(** The table an experiment contributes: its logged data with the
    [experiment_id] column set to the experiment's identifier. *)
Definition tagged (e : Experiment.t) (t : pd.DataFrame) : pd.DataFrame :=
  pd.setitem t "experiment_id" (CStr (Experiment.id e)).

(** [experiment.dataframe(name=...)] raises. *)
Definition lacks (name : string) (e : Experiment.t) : Prop :=
  ∃ ex, Experiment.dataframe e name = Raise ex.

(** [experiment.dataframe(name=...)] returns an entity whose [get_data()]
    returns the table [t]. *)
Definition yields (name : string) (e : Experiment.t) (t : pd.DataFrame) : Prop :=
  ∃ h, Experiment.dataframe e name = Ok h ∧ Dataframe.get_data h = Ok t.

(** The outcome of fetching from an experiment: nothing, or a table. *)
Definition fetches (name : string) (e : Experiment.t) (o : option pd.DataFrame) : Prop :=
  match o with
  | None => lacks name e
  | Some t => yields name e t
  end.

(** The default for [y] can be read off a table with these labels: [y] is
    already set, or the tagged table has a second column. *)
Definition y_resolvable (w : DataframePlot) (cols : list string) : Prop :=
  is_Some (y w) ∨ 2 ≤ length (pd.setitem_columns cols "experiment_id").

(** An axis after lines 107-111: kept if set, else the [i]-th label. *)
Definition infer (cur : option string) (cols : list string) (i : nat) : option string :=
  match cur with
  | Some c => Some c
  | None => cols !! i
  end.

(** [self.data_df] after lines 113-118. *)
Definition merge (acc : attr pd.DataFrame) (d : pd.DataFrame) : attr pd.DataFrame :=
  match acc with
  | Val a => Val (pd.concat a d)
  | _ => Val d
  end.

(** [self] after one pass of the loop body that got the tagged table [d]. *)
Definition absorb (d : pd.DataFrame) (w : DataframePlot) : DataframePlot :=
  set_data_df (merge (data_df w) d)
    (set_y (infer (y w) (pd.columns d) 1)
       (set_x (infer (x w) (pd.columns d) 0) w)).

(** The state after the loop has run over experiments with these outcomes. *)
Fixpoint loop_state (l : list (Experiment.t * option pd.DataFrame)) (s : State) : State :=
  match l with
  | [] => s
  | (e, None) :: l' => loop_state l' (with_warning (missing_warning e) s)
  | (e, Some t) :: l' => loop_state l' (with_self (absorb (tagged e t)) s)
  end.

(** The rows of [self.data_df], none while it holds no table. *)
Definition attr_rows (a : attr pd.DataFrame) : list (gmap string cell) :=
  match a with
  | Val d => pd.rows d
  | _ => []
  end.

(** The tagged tables the loop merges, and the warnings it emits, for
    experiments with these outcomes. *)
Definition contributions (l : list (Experiment.t * option pd.DataFrame)) : list pd.DataFrame :=
  omap (λ p, tagged p.1 <$> p.2) l.

Definition misses (l : list (Experiment.t * option pd.DataFrame)) : list string :=
  omap (λ p, if p.2 is None then Some (missing_warning p.1) else None) l.

(** The state after lines 120-125. *)
Definition inject_state `{Colors} (es : list Experiment.t) (s : State) : State :=
  let s1 := if deref (plotting_func_kwargs (self s)) s !! "color" is None
            then with_kwarg "color" (KwStr "experiment_id") s else s in
  if deref (plotting_func_kwargs (self s1)) s1 !! "color_discrete_sequence" is None
  then with_kwarg "color_discrete_sequence"
         (KwSeq (get_rubicon_colorscale (length es))) s1
  else s1.

(** The rows of a logged table, each with the experiment's identifier. *)
Definition tagged_rows (e : Experiment.t) (t : pd.DataFrame) : list (gmap string cell) :=
  (λ row, <["experiment_id" := CStr (Experiment.id e)]> row) <$> pd.rows t.

(** A property of the state that a computation keeps, whether it returns
    or raises. *)
Definition preserves {A} (P : State → Prop) (m : M A) : Prop := ∀ s, P s → P (m s).1.

(** [self.dataframe_name] is [n]; [self.x] and [self.y] are set to [cx], [cy]. *)
Definition named (n : string) (s : State) : Prop := dataframe_name (self s) = n.

Definition axes (cx cy : string) (s : State) : Prop :=
  x (self s) = Some cx ∧ y (self s) = Some cy.

(** ** A small session for the concrete instances *)

(** Modelled from the spec: [get_rubicon_colorscale], [light_blue] and
    [plot_background_blue] of [rubicon_ml.viz.common.colors], which is not
    among the sources.  The spec only says the helper gives "a default color
    sequence sized to the experiment count"; the tokens are placeholders. *)
Definition sample_colors : Colors :=
  {| get_rubicon_colorscale n := (λ i, "blue-" +:+ str_of_nat i) <$> seq 0 n;
     light_blue := "light-blue";
     plot_background_blue := "background-blue" |}.

(** The text of a cell, for a trace name. *)
Definition cell_label (v : option cell) : string :=
  match v with
  | Some (CStr label) => label
  | _ => ""
  end.

(** A plotting routine in the manner of [plotly.express.line]: one trace per
    value of the [color] column, in order of first appearance, named after
    that value. *)
Definition line_plot (table : pd.DataFrame) (xc yc : option string)
    (kw : gmap string kwarg) : result Figure :=
  match xc, yc with
  | Some xc, Some yc =>
      let key (r : gmap string cell) :=
        match kw !! "color" with
        | Some (KwStr c) => cell_label (r !! c)
        | _ => ""
        end in
      Ok {| data :=
              (λ g, {| name := Some g;
                       points := (λ r, (default CNaN (r !! xc), default CNaN (r !! yc)))
                                   <$> filter (λ r, key r = g) (pd.rows table) |})
                <$> remove_dups (key <$> pd.rows table);
            margin_t := None;
            plot_bgcolor := None |}
  | _, _ => Raise ValueError
  end.

Definition metrics_row (step loss : Z) : gmap string cell :=
  {[ "step" := CNum step; "loss" := CNum loss ]}.

Definition metrics_a : pd.DataFrame :=
  {| pd.columns := ["step"; "loss"]; pd.rows := [metrics_row 0 9; metrics_row 1 7] |}.

Definition metrics_b : pd.DataFrame :=
  {| pd.columns := ["step"; "loss"]; pd.rows := [metrics_row 0 8] |}.

Definition metrics_c : pd.DataFrame :=
  {| pd.columns := ["step"; "loss"]; pd.rows := [metrics_row 0 6; metrics_row 1 5] |}.

(** A logged dataframe without a single row. *)
Definition metrics_none : pd.DataFrame :=
  {| pd.columns := ["step"; "loss"]; pd.rows := [] |}.

(** An experiment with one dataframe, logged under the name [metrics]. *)
Definition logged (i : string) (t : pd.DataFrame) : Experiment.t :=
  {| Experiment.id := i;
     Experiment.dataframe n :=
       if decide (n = "metrics")
       then Ok {| Dataframe.get_data := Ok t |}
       else Raise (Foreign "RubiconException") |}.

Definition run_a : Experiment.t := logged "aaaaaaaa-1111" metrics_a.
Definition run_b : Experiment.t := logged "bbbbbbbb-2222" metrics_b.
Definition run_c : Experiment.t := logged "cccccccc-3333" metrics_c.
Definition run_quiet : Experiment.t := logged "dddddddd-4444" metrics_none.

(** An experiment nothing was logged to. *)
Definition run_bare : Experiment.t :=
  {| Experiment.id := "eeeeeeee-5555";
     Experiment.dataframe _ := Raise (Foreign "RubiconException") |}.

(** [DataframePlot("metrics", experiments=es)], every other argument omitted. *)
Definition widget (es : list Experiment.t) : DataframePlot :=
  init "metrics" (Some es) line_plot None None None.

Definition fresh (w : DataframePlot) (store : gmap loc (gmap string kwarg)) : State :=
  {| self := w; dicts := store; warnings_log := [] |}.

(** The state a first widget starts from. *)
Definition session (es : list Experiment.t) : State := fresh (widget es) initial_dicts.

(** The state after a successful load of three experiments, one of them bare. *)
Definition loaded : State :=
  (load_experiment_data (H := sample_colors) (session [run_a; run_bare; run_b])).1.

Definition shown_b : Figure :=
  {| data := [ {| name := Some "bbbbbbb"; points := [(CNum 0, CNum 8)] |} ];
     margin_t := Some 30%Z;
     plot_bgcolor := Some "background-blue" |}.

(** ** Layout and callback registration *)

(** A Dash component: its class, its keyword properties and its children,
    or a piece of text given as a child. *)
#[warnings="-register-all"]
Inductive Component :=
| Element (kind : string) (props : gmap string string) (children : list Component)
| Text (s : string).

(** The ids of a component and of everything below it, in document order. *)
Fixpoint component_ids (c : Component) : list string :=
  match c with
  | Text _ => []
  | Element _ props children =>
      option_list (props !! "id") ++ concat (map component_ids children)
  end.

(** The children of the first component with the given id. *)
Fixpoint children_of (i : string) (c : Component) : option (list Component) :=
  match c with
  | Text _ => None
  | Element _ props children =>
      if decide (props !! "id" = Some i) then Some children
      else head (omap id (map (children_of i) children))
  end.

(** The [layout] property (lines 64-83). *)
Definition layout `{Colors} : M Component :=
  header ← layout_header;
  mret (Element "html.Div" {[ "id" := "dataframe-plot-layout-container" ]}
          [ Element "html.Div" {[ "id" := "dummy-callback-trigger" ]} [];
            Element "dbc.Row" {[ "className" := "header-row" ]}
              [ Element "html.H5" {[ "id" := "header-text" ]} [Text header] ];
            Element "dcc.Loading" {[ "color" := light_blue ]}
              [ Element "dcc.Graph" {[ "id" := "dataframe-plot" ]} [] ] ]).

(** A callback dependency: component id and component property. *)
Definition dependency : Type := string * string.

(** Lines 134-137 and 139: the outputs and states [register_callbacks] declares. *)
Definition callback_outputs : list dependency :=
  [("dataframe-plot", "figure"); ("header-text", "children")].

Definition callback_states : list dependency := [].

(** Lines 138 and 141-144: the inputs, one more when the widget is linked. *)
Definition callback_inputs (link_experiment_table : bool) : list dependency :=
  [("dummy-callback-trigger", "children")]
  ++ (if link_experiment_table
      then [("experiment-table", "derived_virtual_selected_row_ids")]
      else []).

(** [register_callbacks(link_experiment_table)]: what is handed to
    [self.app.callback], and the function it decorates. *)
Definition register_callbacks `{Colors} (link_experiment_table : bool)
  : list dependency * list dependency * list dependency
    * (list dash_value → M (Figure * string)) :=
  (callback_outputs, callback_inputs link_experiment_table, callback_states,
   update_dataframe_plot link_experiment_table).

(** What a load never writes. *)
Definition framed (w : DataframePlot) (store : gmap loc (gmap string kwarg)) (s : State)
  : Prop :=
  dataframe_name (self s) = dataframe_name w
  ∧ experiments (self s) = experiments w
  ∧ plotting_func (self s) = plotting_func w
  ∧ plotting_func_kwargs (self s) = plotting_func_kwargs w
  ∧ ∀ l, l ≠ plotting_func_kwargs w → dicts s !! l = store !! l.


(** The store of dictionaries is [store] and [self.plotting_func_kwargs]
    refers to [k]. *)
Definition pinned (store : gmap loc (gmap string kwarg)) (k : loc) (s : State) : Prop :=
  dicts s = store ∧ plotting_func_kwargs (self s) = k.

(** ** More of the sample session *)

(** An experiment whose dataframe entity exists while its data cannot be read. *)
Definition run_broken : Experiment.t :=
  {| Experiment.id := "gggggggg-7777";
     Experiment.dataframe _ :=
       Ok {| Dataframe.get_data := Raise (Foreign "FileNotFoundError") |} |}.

(** A logged dataframe with two rows and no column. *)
Definition metrics_blank : pd.DataFrame := {| pd.columns := []; pd.rows := [∅; ∅] |}.

Definition run_blank : Experiment.t := logged "ffffffff-6666" metrics_blank.

(** A plotting routine that leaves its single trace without a name. *)
Definition bare_plot (table : pd.DataFrame) (xc yc : option string)
    (kw : gmap string kwarg) : result Figure :=
  Ok {| data := [ {| name := None; points := [] |} ];
        margin_t := None;
        plot_bgcolor := None |}.

(** The state after loading [run_a] into a widget that plots with [bare_plot]. *)
Definition loaded_bare : State :=
  (load_experiment_data (H := sample_colors)
     (fresh (init "metrics" (Some [run_a]) bare_plot None None None) initial_dicts)).1.

(** The component tree [layout] builds around a header, with the sample colours. *)
Definition sample_tree (header : string) : Component :=
  Element "html.Div" {[ "id" := "dataframe-plot-layout-container" ]}
    [ Element "html.Div" {[ "id" := "dummy-callback-trigger" ]} [];
      Element "dbc.Row" {[ "className" := "header-row" ]}
        [ Element "html.H5" {[ "id" := "header-text" ]} [Text header] ];
      Element "dcc.Loading" {[ "color" := "light-blue" ]}
        [ Element "dcc.Graph" {[ "id" := "dataframe-plot" ]} [] ] ].

Definition shown_all : Figure :=
  {| data := [ {| name := Some "aaaaaaa"; points := [(CNum 0, CNum 9); (CNum 1, CNum 7)] |};
               {| name := Some "bbbbbbb"; points := [(CNum 0, CNum 8)] |} ];
     margin_t := Some 30%Z;
     plot_bgcolor := Some "background-blue" |}.

(** What [plotly.express]-like [line_plot] returns for the rows of [run_b]. *)
Definition raw_b : Figure :=
  {| data := [ {| name := Some "bbbbbbbb-2222"; points := [(CNum 0, CNum 8)] |} ];
     margin_t := None;
     plot_bgcolor := None |}.

(** ** Tactics *)

(** Unfold the monad operations in the goal. *)
Ltac run :=
  repeat (unfold mbind, M_bind, mret, M_ret, get_self, set_self, attempt, call, raise,
            warn, index, read_kwargs, kwargs_setitem, try_except; cbn).

(** Run a block and split on every test it makes, innermost first. *)
Ltac split_block :=
  intros s; run;
  repeat (match goal with
          | |- context [match ?o with _ => _ end] =>
              lazymatch o with
              | context [match _ with _ => _ end] => fail
              | _ => destruct o eqn:?
              end
          end; run).

(** ** Loading *)

Section Loading.
Context `{Colors}.

Lemma setitem_columns_nonempty cols c : ∃ c0, pd.setitem_columns cols c !! 0 = Some c0.
Proof.
  unfold pd.setitem_columns. case_decide as Hin.
  - destruct cols; [by apply elem_of_nil in Hin | eauto].
  - destruct cols; simpl; eauto.
Qed.

Lemma load_body_lacks e s :
  lacks (dataframe_name (self s)) e →
  load_body e s = (with_warning (missing_warning e) s, Ok tt).
Proof.
  intros [ex Hex]. unfold load_body. run. by rewrite Hex.
Qed.

Lemma load_body_yields e t s :
  yields (dataframe_name (self s)) e t →
  data_df (self s) ≠ Unset →
  y_resolvable (self s) (pd.columns t) →
  load_body e s = (with_self (absorb (tagged e t)) s, Ok tt).
Proof.
  intros (h & Hh & Ht) Hd Hy. unfold load_body, default_x, default_y, accumulate.
  run. rewrite Hh. run. rewrite Ht. run.
  destruct (setitem_columns_nonempty (pd.columns t) "experiment_id") as [c0 Hc0].
  destruct s as [[nm es pf kw xx yy dd] ds wl]; cbn in *.
  assert (Hc1 : is_Some yy ∨ ∃ c1, pd.setitem_columns (pd.columns t) "experiment_id" !! 1 = Some c1).
  { destruct Hy as [?|Hlen]; [by left|right]. cbn in *.
    apply lookup_lt_is_Some_2 in Hlen. destruct Hlen; eauto. }
  destruct xx as [xx|], yy as [yy|]; run; rewrite ?Hc0; run.
  all: try (destruct Hc1 as [[? ?]|[c1 Hc1]]; [done|rewrite Hc1; run]).
  all: destruct dd; try done.
  all: unfold with_self, absorb, tagged, infer, merge, set_data_df, set_y, set_x,
    pd.reset_index; cbn; by rewrite ?Hc0, ?Hc1.
Qed.

Lemma for_each_app {A} (l1 l2 : list A) (body : A → M unit) s :
  for_each (l1 ++ l2) body s =
  match for_each l1 body s with
  | (s', Ok _) => for_each l2 body s'
  | (s', Raise e) => (s', Raise e)
  end.
Proof.
  revert s. induction l1 as [|a l1 IH]; intros s; [done|].
  cbn [app for_each]. run. destruct (body a s) as [s1 [[]|e]]; [apply IH|done].
Qed.

Lemma y_resolvable_absorb d w cols : y_resolvable w cols → y_resolvable (absorb d w) cols.
Proof.
  intros [[c Hc]|Hlen]; [left|by right].
  unfold absorb, infer; cbn. rewrite Hc. eauto.
Qed.

Lemma for_each_load es os s :
  Forall2 (fetches (dataframe_name (self s))) es os →
  data_df (self s) ≠ Unset →
  Forall (λ t, y_resolvable (self s) (pd.columns t)) (omap id os) →
  for_each es load_body s = (loop_state (zip es os) s, Ok tt).
Proof.
  intros Hf. revert s Hf. induction es as [|e es IH] in os |- *; intros s Hf Hd Hy.
  { by apply Forall2_nil_inv_l in Hf as ->. }
  apply Forall2_cons_inv_l in Hf as (o & os' & Ho & Hf & ->).
  cbn [for_each zip zip_with loop_state]. run. destruct o as [t|]; cbn in Ho, Hy.
  - apply Forall_cons in Hy as [Hy0 Hy].
    rewrite (load_body_yields e t s Ho Hd Hy0). apply IH.
    + done.
    + cbn. by destruct (data_df (self s)).
    + eapply Forall_impl; [exact Hy|]. intros t' Ht'. by apply y_resolvable_absorb.
  - rewrite (load_body_lacks e s Ho). by apply IH.
Qed.

Lemma loop_state_frame l s :
  dataframe_name (self (loop_state l s)) = dataframe_name (self s)
  ∧ experiments (self (loop_state l s)) = experiments (self s)
  ∧ plotting_func_kwargs (self (loop_state l s)) = plotting_func_kwargs (self s)
  ∧ dicts (loop_state l s) = dicts s.
Proof.
  revert s. induction l as [|[e [t|]] l IH]; intros s; [done|..]; cbn [loop_state];
    destruct (IH (with_self (absorb (tagged e t)) s)) as (?&?&?&?) || 
    destruct (IH (with_warning (missing_warning e) s)) as (?&?&?&?); done.
Qed.

Lemma loop_state_warnings l s :
  warnings_log (loop_state l s) = warnings_log s ++ misses l.
Proof.
  revert s. induction l as [|[e [t|]] l IH]; intros s; cbn [loop_state].
  - by rewrite app_nil_r.
  - by rewrite IH.
  - rewrite IH. cbn. by rewrite <- app_assoc.
Qed.

Lemma loop_state_data l s :
  data_df (self (loop_state l s)) = foldl merge (data_df (self s)) (contributions l).
Proof.
  revert s. induction l as [|[e [t|]] l IH]; intros s; cbn [loop_state]; [done|..];
    by rewrite IH.
Qed.

Lemma merge_rows a ds :
  attr_rows (foldl merge a ds) = attr_rows a ++ concat (pd.rows <$> ds).
Proof.
  revert a. induction ds as [|d ds IH]; intros a; cbn.
  - by rewrite app_nil_r.
  - rewrite IH. destruct a; cbn; [done..|by rewrite <- app_assoc].
Qed.



Lemma contributions_found es ts :
  length es = length ts →
  contributions (zip es (Some <$> ts)) = zip_with tagged es ts.
Proof.
  revert ts. induction es as [|e es IH]; intros [|t ts] Hlen; try done.
  cbn in *. f_equal. apply IH. lia.
Qed.

Lemma misses_found es ts : misses (zip es (Some <$> ts)) = [].
Proof. revert ts. induction es as [|e es IH]; intros [|t ts]; try done. cbn. apply IH. Qed.

Lemma inject_defaults_run s es :
  experiments (self s) = Some es →
  inject_defaults s = (inject_state es s, Ok tt).
Proof.
  intros Hes. unfold inject_defaults, inject_state, experiments_list. run.
  destruct (deref (plotting_func_kwargs (self s)) s !! "color"); run.
  - destruct (deref (plotting_func_kwargs (self s)) s !! "color_discrete_sequence"); run;
      [done|rewrite Hes; by run].
  - destruct (deref _ (with_kwarg _ _ s) !! "color_discrete_sequence"); run;
      [done|rewrite Hes; by run].
Qed.

Lemma inject_state_frame es s :
  self (inject_state es s) = self s ∧ warnings_log (inject_state es s) = warnings_log s.
Proof.
  unfold inject_state.
  destruct (deref (plotting_func_kwargs (self s)) s !! "color"); cbn;
    repeat (match goal with |- context [match ?o with _ => _ end] => destruct o end; cbn); done.
Qed.

Lemma check_found_none s :
  data_df (self s) = PyNone →
  check_found s = (s, Raise (Exception (not_found_message (dataframe_name (self s))))).
Proof.
  intros Hd. unfold check_found, data_df_empty, data_df_eq_None.
  by repeat (progress (run; rewrite ?Hd)).
Qed.

Lemma check_found_data s d :
  data_df (self s) = Val d → pd.empty d = false → check_found s = (s, Ok tt).
Proof.
  intros Hd He. unfold check_found, data_df_empty, data_df_eq_None.
  by repeat (progress (run; rewrite ?Hd, ?He)).
Qed.


Lemma load_run s es os :
  experiments (self s) = Some es →
  Forall2 (fetches (dataframe_name (self s))) es os →
  Forall (λ t, y_resolvable (self s) (pd.columns t)) (omap id os) →
  load_experiment_data s =
  check_found (inject_state es (loop_state (zip es os) (with_self (set_data_df PyNone) s))).
Proof.
  intros Hes Hf Hy. unfold load_experiment_data, experiments_list. run. rewrite Hes. run.
  rewrite (for_each_load es os); [|done..].
  rewrite (inject_defaults_run _ es); [done|].
  by destruct (loop_state_frame (zip es os) (with_self (set_data_df PyNone) s)) as (_&->&_).
Qed.

Lemma concat_tagged es ts :
  concat (pd.rows <$> zip_with tagged es ts) = concat (zip_with tagged_rows es ts).
Proof. revert ts. induction es as [|e es IH]; intros [|t ts]; cbn; try done. by rewrite IH. Qed.

Lemma tagged_rows_id e t (r : gmap string cell) :
  r ∈ tagged_rows e t → r !! "experiment_id" = Some (CStr (Experiment.id e)).
Proof.
  unfold tagged_rows. intros Hr. apply list_elem_of_fmap in Hr as (r0 & -> & _).
  apply lookup_insert_eq.
Qed.

Lemma length_concat_tagged es ts :
  length es = length ts →
  length (concat (zip_with tagged_rows es ts)) = sum_list_with (λ t, length (pd.rows t)) ts.
Proof.
  revert ts. induction es as [|e es IH]; intros [|t ts] Hlen; cbn in *; try done.
  rewrite length_app, IH by lia. unfold tagged_rows. by rewrite length_fmap.
Qed.

Lemma Forall2_found name es ts :
  Forall2 (yields name) es ts → Forall2 (fetches name) es (Some <$> ts).
Proof. intros Hf. apply Forall2_fmap_r. eapply Forall2_impl; [exact Hf|done]. Qed.

Lemma Forall2_missing name es :
  Forall (lacks name) es → Forall2 (fetches name) es ((λ _, None) <$> es).
Proof.
  intros Hf. apply Forall2_fmap_r, Forall_Forall2_diag.
  eapply Forall_impl; [exact Hf|done].
Qed.

Lemma omap_id_found (ts : list pd.DataFrame) : omap id (Some <$> ts) = ts.
Proof. induction ts as [|t ts IH]; cbn; [done|by rewrite IH]. Qed.

Lemma omap_id_missing (es : list Experiment.t) :
  omap id ((λ _, @None pd.DataFrame) <$> es) = [].
Proof. induction es as [|e es IH]; cbn; [done|by rewrite IH]. Qed.

Lemma contributions_missing es :
  contributions (zip es ((λ _, None) <$> es)) = [].
Proof. induction es as [|e es IH]; [done|exact IH]. Qed.

Lemma misses_missing es :
  misses (zip es ((λ _, None) <$> es)) = missing_warning <$> es.
Proof.
  induction es as [|e es IH]; [done|].
  change (missing_warning e :: misses (zip es ((λ _, None) <$> es))
          = missing_warning e :: (missing_warning <$> es)).
  by rewrite IH.
Qed.

(** C1.  When no experiment yields a dataframe of the configured name (every
    call [experiment.dataframe(name=...)] raises), [load_experiment_data]
    raises [Exception("No dataframe with name <name> found!")]: the load
    aborts instead of leaving the widget with an unset or empty table.  At
    that point [data_df] is [None] and one warning per experiment has been
    emitted. *)
Theorem load_no_dataframe_found s es :
  experiments (self s) = Some es →
  Forall (lacks (dataframe_name (self s))) es →
  ∃ s', load_experiment_data s =
          (s', Raise (Exception ("No dataframe with name " +:+ dataframe_name (self s)
                                 +:+ " found!")))
        ∧ data_df (self s') = PyNone
        ∧ warnings_log s' = warnings_log s ++ (missing_warning <$> es).
Proof.
  intros Hes Hlack.
  pose (s0 := with_self (set_data_df PyNone) s).
  pose (l := zip es ((λ _, @None pd.DataFrame) <$> es)).
  rewrite (load_run s es ((λ _, None) <$> es) Hes);
    [|by apply Forall2_missing|by rewrite omap_id_missing].
  fold s0 l.
  destruct (inject_state_frame es (loop_state l s0)) as [Hself Hlog].
  destruct (loop_state_frame l s0) as (Hname & _).
  assert (Hdata : data_df (self (inject_state es (loop_state l s0))) = PyNone).
  { rewrite Hself, loop_state_data. unfold l. by rewrite contributions_missing. }
  eexists. split; [|split].
  - rewrite (check_found_none _ Hdata), Hself, Hname. done.
  - done.
  - rewrite Hlog, loop_state_warnings. unfold l. by rewrite misses_missing.
Qed.

Lemma empty_false d : pd.columns d ≠ [] → pd.rows d ≠ [] → pd.empty d = false.
Proof. unfold pd.empty. by destruct (pd.columns d), (pd.rows d). Qed.

Lemma setitem_columns_not_nil cols c : pd.setitem_columns cols c ≠ [].
Proof. destruct (setitem_columns_nonempty cols c) as [c0 Hc0]. by intros Heq; rewrite Heq in Hc0. Qed.




Lemma check_found_state s : (check_found s).1 = s.
Proof.
  unfold check_found, data_df_empty, data_df_eq_None. run.
  destruct (data_df (self s)) as [| |d] eqn:Hd; run; rewrite ?Hd; try done.
  destruct (pd.empty d); run; by rewrite ?Hd.
Qed.


Lemma merge_columns_not_nil a ds :
  (∀ d, a = Val d → pd.columns d ≠ []) →
  Forall (λ d, pd.columns d ≠ []) ds →
  ∀ d, foldl merge a ds = Val d → pd.columns d ≠ [].
Proof.
  intros Ha Hds. revert a Ha. induction Hds as [|d' ds Hd' Hds IH]; intros a Ha; cbn; [done|].
  apply IH. intros d. destruct a as [| |d0]; cbn; intros [= <-]; [done..|].
  cbn. specialize (Ha d0 eq_refl). by destruct (pd.columns d0).
Qed.

Lemma tagged_columns_not_nil es ts :
  Forall (λ d, pd.columns d ≠ []) (zip_with tagged es ts).
Proof.
  revert ts. induction es as [|e es IH]; intros [|t ts]; cbn [zip_with]; try done.
  constructor; [apply setitem_columns_not_nil|apply IH].
Qed.

(** C3, as amended.  If exactly one experiment fails to yield the named
    dataframe, the others succeed and together contribute at least one row,
    [load_experiment_data] returns without raising, the combined table holds
    exactly the tagged rows of the successful experiments, and exactly one
    warning, naming the failing experiment, is added to the log. *)
Theorem load_skips_missing_experiment s es1 bad es2 ts1 ts2 :
  experiments (self s) = Some (es1 ++ bad :: es2) →
  lacks (dataframe_name (self s)) bad →
  Forall2 (yields (dataframe_name (self s))) es1 ts1 →
  Forall2 (yields (dataframe_name (self s))) es2 ts2 →
  Forall (λ t, y_resolvable (self s) (pd.columns t)) (ts1 ++ ts2) →
  (∃ t, t ∈ ts1 ++ ts2 ∧ pd.rows t ≠ []) →
  ∃ s' df,
    load_experiment_data s = (s', Ok tt)
    ∧ data_df (self s') = Val df
    ∧ pd.rows df = concat (zip_with tagged_rows (es1 ++ es2) (ts1 ++ ts2))
    ∧ warnings_log s' = warnings_log s ++ [missing_warning bad].
Proof.
  intros Hes Hbad Hy1 Hy2 Hres (t & Ht & Hrt).
  pose proof (Forall2_length _ _ _ Hy1) as Hlen1.
  pose proof (Forall2_length _ _ _ Hy2) as Hlen2.
  pose (s0 := with_self (set_data_df PyNone) s).
  pose (os := (Some <$> ts1) ++ None :: (Some <$> ts2)).
  assert (Hzip : zip (es1 ++ bad :: es2) os
                 = zip es1 (Some <$> ts1) ++ (bad, None) :: zip es2 (Some <$> ts2)).
  { unfold os. rewrite zip_with_app by (by rewrite length_fmap). done. }
  rewrite (load_run s _ os Hes); last first.
  { unfold os. rewrite omap_app. cbn. by rewrite !omap_id_found. }
  { unfold os. apply Forall2_app; [by apply Forall2_found|].
    constructor; [done|by apply Forall2_found]. }
  rewrite Hzip. set (l := zip es1 _ ++ _ :: zip es2 _).
  destruct (inject_state_frame (es1 ++ bad :: es2) (loop_state l s0)) as [Hself Hlog].
  assert (Hcontrib : contributions l = zip_with tagged (es1 ++ es2) (ts1 ++ ts2)).
  { unfold l, contributions. rewrite omap_app. cbn [omap list_omap]. cbn [snd fmap option_fmap option_map].
    fold (contributions (zip es1 (Some <$> ts1))) (contributions (zip es2 (Some <$> ts2))).
    rewrite !contributions_found by done. by rewrite zip_with_app. }
  assert (Hmiss : misses l = [missing_warning bad]).
  { unfold l, misses. rewrite omap_app. cbn [omap list_omap]. cbn [snd fst].
    fold (misses (zip es1 (Some <$> ts1))) (misses (zip es2 (Some <$> ts2))).
    by rewrite !misses_found. }
  pose proof (loop_state_data l s0) as Hdata. rewrite Hcontrib in Hdata.
  change (data_df (self s0)) with (@PyNone pd.DataFrame) in Hdata.
  pose proof (merge_rows PyNone (zip_with tagged (es1 ++ es2) (ts1 ++ ts2))) as Hrows.
  rewrite concat_tagged in Hrows.
  pose proof (length_concat_tagged (es1 ++ es2) (ts1 ++ ts2)) as Hcount.
  rewrite !length_app in Hcount. specialize (Hcount ltac:(lia)).
  pose proof (sum_list_with_in t (λ t, length (pd.rows t)) _ Ht) as Hin. cbn in Hin.
  destruct (foldl merge PyNone (zip_with tagged (es1 ++ es2) (ts1 ++ ts2)))
    as [| |df] eqn:Hdf; cbn [attr_rows app] in Hrows.
  1,2: rewrite <- Hrows in Hcount; cbn in Hcount; destruct (pd.rows t); [done|cbn in Hin; lia].
  assert (Hd : data_df (self (inject_state (es1 ++ bad :: es2) (loop_state l s0))) = Val df)
    by (by rewrite Hself).
  exists (inject_state (es1 ++ bad :: es2) (loop_state l s0)), df.
  repeat split; try done.
  - apply (check_found_data _ df Hd), empty_false.
    + eapply (merge_columns_not_nil PyNone); [done|apply tagged_columns_not_nil|exact Hdf].
    + rewrite Hrows. intros Hnil. rewrite Hnil in Hcount. cbn in Hcount.
      destruct (pd.rows t); [done|cbn in Hin; lia].
  - by rewrite Hlog, loop_state_warnings, Hmiss.
Qed.

(** *** What every path through the loop keeps *)

Lemma preserves_bind {A B} P (m : M A) (f : A → M B) :
  preserves P m → (∀ a, preserves P (f a)) → preserves P (m ≫= f).
Proof.
  intros Hm Hf s HP. specialize (Hm s HP). unfold mbind, M_bind.
  destruct (m s) as [s1 [a|e]]; [by apply Hf|done].
Qed.

Lemma preserves_read {A} P (f : DataframePlot → M A) :
  (∀ s, P s → P (f (self s) s).1) → preserves P (get_self ≫= f).
Proof. intros Hf s HP. by apply Hf. Qed.

Lemma preserves_pure {A} P (m : M A) : (∀ s, (m s).1 = s) → preserves P m.
Proof. intros Hm s HP. by rewrite Hm. Qed.

Lemma preserves_for_each {A} P (l : list A) (body : A → M unit) :
  (∀ a, preserves P (body a)) → preserves P (for_each l body).
Proof.
  intros Hb. induction l as [|a l IH]; [by intros s|].
  cbn [for_each]. apply preserves_bind; [apply Hb|done].
Qed.

Lemma default_x_named n d : preserves (named n) (default_x d).
Proof. unfold preserves, named, default_x. by split_block. Qed.

Lemma default_y_named n d : preserves (named n) (default_y d).
Proof. unfold preserves, named, default_y. by split_block. Qed.

Lemma accumulate_named n d : preserves (named n) (accumulate d).
Proof. unfold preserves, named, accumulate. by split_block. Qed.

Lemma default_x_axes cx cy d : preserves (axes cx cy) (default_x d).
Proof.
  unfold preserves, axes, default_x. split_block; intros [? ?]; by simplify_eq.
Qed.

Lemma default_y_axes cx cy d : preserves (axes cx cy) (default_y d).
Proof.
  unfold preserves, axes, default_y. split_block; intros [? ?]; by simplify_eq.
Qed.

Lemma accumulate_axes cx cy d : preserves (axes cx cy) (accumulate d).
Proof. unfold preserves, axes, accumulate. by split_block. Qed.

Lemma load_body_preserves P e :
  (∀ msg s, P s → P (with_warning msg s)) →
  (∀ d, preserves P (default_x d)) →
  (∀ d, preserves P (default_y d)) →
  (∀ d, preserves P (accumulate d)) →
  preserves P (load_body e).
Proof.
  intros Hw Hx Hy Ha. unfold load_body. apply preserves_read. intros s HP.
  revert s HP. apply preserves_bind; [by apply preserves_pure; intros s; unfold attempt, call|].
  intros [h|ex]; [|by intros s HP; apply Hw].
  apply preserves_bind; [by apply preserves_pure|]. intros t.
  apply preserves_bind; [apply Hx|]. intros _.
  apply preserves_bind; [apply Hy|]. intros _. apply Ha.
Qed.

Lemma load_body_named n e : preserves (named n) (load_body e).
Proof.
  apply load_body_preserves;
    [done|apply default_x_named|apply default_y_named|apply accumulate_named].
Qed.

Lemma load_body_axes cx cy e : preserves (axes cx cy) (load_body e).
Proof.
  apply load_body_preserves;
    [done|apply default_x_axes|apply default_y_axes|apply accumulate_axes].
Qed.

Lemma for_each_name es s :
  dataframe_name (self (for_each es load_body s).1) = dataframe_name (self s).
Proof. by apply (preserves_for_each (named _)); [intros e; apply load_body_named|]. Qed.

Lemma inject_defaults_self s : self (inject_defaults s).1 = self s.
Proof.
  unfold inject_defaults, experiments_list. revert s. by split_block.
Qed.

(** Whatever leaves the loop body as an exception was raised after a fetch
    that returned: by [get_data()], by the lookup of a default axis, or by
    reading a [data_df] that was never assigned. *)
Lemma load_body_raises e s s' ex :
  load_body e s = (s', Raise ex) →
  ∃ h, Experiment.dataframe e (dataframe_name (self s)) = Ok h
       ∧ (Dataframe.get_data h = Raise ex ∨ ex = IndexError ∨ ex = AttributeError).
Proof.
  unfold load_body, default_x, default_y, accumulate. revert s.
  split_block; intros [= ]; subst; eauto.
Qed.

Lemma escaped_exception_origin es s s' ex :
  for_each es load_body s = (s', Raise ex) →
  ∃ e h, e ∈ es ∧ Experiment.dataframe e (dataframe_name (self s)) = Ok h
         ∧ (Dataframe.get_data h = Raise ex ∨ ex = IndexError ∨ ex = AttributeError).
Proof.
  revert s. induction es as [|e es IH]; intros s; [done|].
  cbn [for_each]. run. pose proof (load_body_named _ e s eq_refl) as Hn.
  destruct (load_body e s) as [s1 [[]|ex1]] eqn:Hbody.
  - intros Hrest. destruct (IH _ Hrest) as (e' & h & Hin & Hh & Hor).
    exists e', h. unfold named in Hn. cbn in Hn. rewrite Hn in Hh. split; [by right|done].
  - intros [= <- <-]. destruct (load_body_raises _ _ _ _ Hbody) as (h & Hh & Hor).
    exists e, h. split; [by left|done].
Qed.


Lemma setitem_columns_two c0 c1 rest c :
  ∃ rest', pd.setitem_columns (c0 :: c1 :: rest) c = c0 :: c1 :: rest'.
Proof. unfold pd.setitem_columns. case_decide; cbn; eauto. Qed.

Lemma loop_state_missing_self es s :
  self (loop_state (zip es ((λ _, None) <$> es)) s) = self s.
Proof.
  revert s. induction es as [|e es IH]; intros s; [done|].
  cbn [zip_with fmap list_fmap loop_state]. by etrans; [apply IH|].
Qed.

(** C4.  When neither [x] nor [y] is set, after [load_experiment_data] [x]
    is the first and [y] the second column name of the dataframe of the first
    experiment that yields one.  The experiments [es2] that come later are
    arbitrary: whatever they yield or raise, [x] and [y] keep these values,
    so the inference happens once. *)
Theorem load_infers_axes_once s es1 e es2 t c0 c1 rest :
  experiments (self s) = Some (es1 ++ e :: es2) →
  x (self s) = None →
  y (self s) = None →
  Forall (lacks (dataframe_name (self s))) es1 →
  yields (dataframe_name (self s)) e t →
  pd.columns t = c0 :: c1 :: rest →
  x (self (load_experiment_data s).1) = Some c0
  ∧ y (self (load_experiment_data s).1) = Some c1.
Proof.
  intros Hes Hx Hy Hlack Hyield Hcols.
  pose (s0 := with_self (set_data_df PyNone) s).
  pose (l := zip es1 ((λ _, @None pd.DataFrame) <$> es1)).
  destruct (setitem_columns_two c0 c1 rest "experiment_id") as [rest' Hrest].
  assert (Hloop1 : for_each es1 load_body s0 = (loop_state l s0, Ok tt)).
  { apply for_each_load; [by apply Forall2_missing|done|by rewrite omap_id_missing]. }
  pose proof (loop_state_missing_self es1 s0) as Hs1. fold l in Hs1.
  set (s1 := loop_state l s0) in *.
  assert (Hbody : load_body e s1 = (with_self (absorb (tagged e t)) s1, Ok tt)).
  { apply load_body_yields; rewrite Hs1; cbn; [done|done|].
    right. rewrite Hcols, Hrest. cbn. lia. }
  assert (Haxes : axes c0 c1 (with_self (absorb (tagged e t)) s1)).
  { unfold axes, absorb, infer, tagged. cbn. rewrite Hs1. cbn. by rewrite Hx, Hy, Hcols, Hrest. }
  pose proof (preserves_for_each (axes c0 c1) es2 load_body
                (load_body_axes c0 c1) _ Haxes) as Hrest2.
  unfold load_experiment_data, experiments_list. run. rewrite Hes. run.
  fold s0. rewrite for_each_app, Hloop1. cbn [for_each]. run. rewrite Hbody.
  destruct (for_each es2 load_body _) as [s2 [[]|ex]]; [|done].
  pose proof (inject_defaults_self s2) as Hinj.
  destruct (inject_defaults s2) as [s3 [[]|ex]]; cbn in Hinj, Hrest2.
  - rewrite check_found_state. unfold axes in Hrest2. by rewrite Hinj.
  - cbn. unfold axes in Hrest2. by rewrite Hinj.
Qed.

End Loading.

(** ** Rendering *)

Section Rendering.
Context `{Colors}.

Lemma str_take_length n str : String.length (str_take n str) ≤ n.
Proof.
  revert str. induction n as [|n IH]; intros [|c str]; cbn; try lia.
  specialize (IH str). lia.
Qed.

Lemma str_take_short n str : String.length str ≤ n → str_take n str = str.
Proof.
  revert str. induction n as [|n IH]; intros [|c str]; cbn; try done; try lia.
  intros Hlen. f_equal. apply IH. lia.
Qed.

Lemma truncate_names_spec ts r :
  truncate_names ts = Ok r →
  Forall2 (λ t t', ∃ n, name t = Some n ∧ name t' = Some (str_take 7 n)
                        ∧ points t' = points t) ts r.
Proof.
  revert r. induction ts as [|t ts IH]; intros r; cbn [truncate_names].
  - by intros [= <-].
  - unfold truncate_name. destruct (name t) as [n|] eqn:Hn; [|done].
    destruct (truncate_names ts) as [r'|]; [|done]. intros [= <-].
    constructor; [by exists n|by apply IH].
Qed.

Lemma selected_row_ids_state link args s : (selected_row_ids link args s).1 = s.
Proof. unfold selected_row_ids, experiments_list. revert s. by destruct link; split_block. Qed.

Lemma filtered_data_state ids s : (filtered_data ids s).1 = s.
Proof. unfold filtered_data. revert s. by split_block. Qed.

(** The callback reads the state and leaves it as it found it. *)
Lemma update_dataframe_plot_state link args s :
  (update_dataframe_plot link args s).1 = s.
Proof.
  unfold update_dataframe_plot. unfold mbind at 1, M_bind at 1.
  pose proof (selected_row_ids_state link args s) as Hsel.
  destruct (selected_row_ids link args s) as [s1 [ids|ex]]; cbn in Hsel; subst s1; [|done].
  run. pose proof (filtered_data_state ids s) as Hf.
  destruct (filtered_data ids s) as [s1 [table|ex]]; cbn in Hf; subst s1; [|done].
  run. destruct (plotting_func _ _ _ _ _) as [fig|ex]; [|done].
  run. by destruct (truncate_names (data fig)).
Qed.

(** What a returned pair is made of. *)
Lemma update_dataframe_plot_returns link args s s' fig header :
  update_dataframe_plot link args s = (s', Ok (fig, header)) →
  ∃ ids d table raw traces,
    selected_row_ids link args s = (s, Ok ids)
    ∧ data_df (self s) = Val d
    ∧ pd.getitem_isin d "experiment_id" ids = Ok table
    ∧ plotting_func (self s) table (x (self s)) (y (self s))
        (deref (plotting_func_kwargs (self s)) s) = Ok raw
    ∧ truncate_names (data raw) = Ok traces
    ∧ fig = {| data := traces; margin_t := Some 30%Z;
               plot_bgcolor := Some plot_background_blue |}
    ∧ header = header_text (dataframe_name (self s)) (length ids)
    ∧ s' = s.
Proof.
  unfold update_dataframe_plot. unfold mbind at 1, M_bind at 1.
  pose proof (selected_row_ids_state link args s) as Hsel.
  destruct (selected_row_ids link args s) as [s1 [ids|ex]]; cbn in Hsel; subst s1; [|done].
  run. unfold filtered_data. run.
  destruct (data_df (self s)) as [| |d] eqn:Hd; run; try done.
  destruct (pd.getitem_isin d "experiment_id" ids) as [table|ex] eqn:Ht; [|done].
  destruct (plotting_func _ _ _ _ _) as [raw|ex] eqn:Hp; [|done].
  run. destruct (truncate_names (data raw)) as [traces|ex] eqn:Htr; [|done].
  intros [= <- <- <-]. by exists ids, d, table, raw, traces.
Qed.

Lemma isin_spec c ids (r : gmap string cell) :
  pd.isin c ids r = true ↔ ∃ i, r !! c = Some (CStr i) ∧ i ∈ ids.
Proof.
  unfold pd.isin. destruct (r !! c) as [[i| |]|]; try (split; [done|by intros (? & ? & ?)]).
  rewrite bool_decide_eq_true. split; [by exists i|by intros (? & [= ->] & ?)].
Qed.

Lemma getitem_isin_spec d c ids table :
  pd.getitem_isin d c ids = Ok table →
  pd.columns table = pd.columns d
  ∧ pd.rows table = filter (λ r, pd.isin c ids r = true) (pd.rows d)
  ∧ ∀ r, r ∈ pd.rows table ↔ r ∈ pd.rows d ∧ ∃ i, r !! c = Some (CStr i) ∧ i ∈ ids.
Proof.
  unfold pd.getitem_isin. case_decide; [|done]. intros [= <-]. cbn.
  split; [done|]. split; [done|]. intros r. rewrite list_elem_of_filter, isin_spec.
  tauto.
Qed.

Lemma active_ids_linked v : (if truthy v then as_ids v else []) = as_ids v.
Proof. by destruct v as [|[|i l]]. Qed.

Lemma selected_row_ids_spec link args s s' ids :
  selected_row_ids link args s = (s', Ok ids) →
  if link
  then ∃ v, last args = Some v ∧ ids = as_ids v
  else ∃ es, experiments (self s) = Some es ∧ ids = Experiment.id <$> es.
Proof.
  unfold selected_row_ids, experiments_list. destruct link; run.
  - destruct (last args) as [v|]; [|done]. intros [= _ <-]. exists v.
    by rewrite active_ids_linked.
  - destruct (experiments (self s)) as [es|]; [|done]. run. intros [= _ <-]. by exists es.
Qed.

Lemma truncate_names_short ts r :
  truncate_names ts = Ok r →
  Forall (λ t, ∃ n, name t = Some n ∧ String.length n ≤ 7) r.
Proof.
  intros Htr. apply truncate_names_spec in Htr.
  induction Htr as [|t t' ts ts' (n & _ & Hn & _) _ IH]; constructor; [|done].
  exists (str_take 7 n). split; [done|apply str_take_length].
Qed.

(** C5.  In every figure the render callback returns, each trace has a
    legend label, and that label is at most 7 characters long. *)
Theorem legend_labels_at_most_7 link args s s' fig header :
  update_dataframe_plot link args s = (s', Ok (fig, header)) →
  Forall (λ t, ∃ n, name t = Some n ∧ String.length n ≤ 7) (data fig).
Proof.
  intros Hrun.
  destruct (update_dataframe_plot_returns _ _ _ _ _ _ Hrun)
    as (ids & d & table & raw & traces & _ & _ & _ & _ & Htr & -> & _).
  cbn. by apply truncate_names_short in Htr.
Qed.

(** C6.  The header returned by the render callback counts the selected
    identifiers: with exactly one it ends in "1 experiment", with any other
    number [k], zero included, in "k experiments". *)
Theorem header_counts_selected link args s s' fig header :
  update_dataframe_plot link args s = (s', Ok (fig, header)) →
  ∃ ids,
    selected_row_ids link args s = (s, Ok ids)
    ∧ (length ids = 1 →
       header = "showing dataframe '" +:+ dataframe_name (self s)
                +:+ "' over 1 experiment")
    ∧ (length ids ≠ 1 →
       header = "showing dataframe '" +:+ dataframe_name (self s)
                +:+ "' over " +:+ str_of_nat (length ids) +:+ " experiments").
Proof.
  intros Hrun.
  destruct (update_dataframe_plot_returns _ _ _ _ _ _ Hrun)
    as (ids & d & table & raw & traces & Hsel & _ & _ & _ & _ & _ & -> & _).
  exists ids. split; [done|]. unfold header_text. split.
  - by intros ->.
  - intros Hne. by rewrite decide_True.
Qed.

(** C7.  Whenever the render callback returns, the active identifiers are
    the last callback argument (an absent selection, [None], counting as the
    empty list) if the widget is linked to the experiment table and the
    identifiers of all configured experiments otherwise; and the figure is
    the plotting routine's result, names shortened, on the table that has the
    columns of the combined table and exactly those of its rows, in order,
    whose [experiment_id] is among the active identifiers. *)
Theorem render_plots_active_rows link args s s' fig header :
  update_dataframe_plot link args s = (s', Ok (fig, header)) →
  ∃ ids d table raw,
    (if link
     then ∃ v, last args = Some v ∧ ids = match v with DNone => [] | DList l => l end
     else ∃ es, experiments (self s) = Some es ∧ ids = Experiment.id <$> es)
    ∧ data_df (self s) = Val d
    ∧ pd.columns table = pd.columns d
    ∧ pd.rows table = filter (λ r, pd.isin "experiment_id" ids r = true) (pd.rows d)
    ∧ (∀ r, r ∈ pd.rows table ↔
             r ∈ pd.rows d ∧ ∃ i, r !! "experiment_id" = Some (CStr i) ∧ i ∈ ids)
    ∧ plotting_func (self s) table (x (self s)) (y (self s))
        (deref (plotting_func_kwargs (self s)) s) = Ok raw
    ∧ truncate_names (data raw) = Ok (data fig).
Proof.
  intros Hrun.
  destruct (update_dataframe_plot_returns _ _ _ _ _ _ Hrun)
    as (ids & d & table & raw & traces & Hsel & Hd & Ht & Hp & Htr & -> & _).
  exists ids, d, table, raw.
  apply selected_row_ids_spec in Hsel. apply getitem_isin_spec in Ht as (Hc & Hr & Hiff).
  split; [exact Hsel|]. by split_and!.
Qed.

(** C9.  The render callback leaves the widget state as it found it, so a
    second invocation with the same arguments runs in the same state and
    returns the same result, figure and header text alike (or raises the
    same exception). *)
Theorem render_twice_same link args s :
  let first := update_dataframe_plot link args s in
  let second := update_dataframe_plot link args first.1 in
  first.1 = s ∧ second.1 = s ∧ second.2 = first.2.
Proof.
  cbn zeta. by rewrite !update_dataframe_plot_state.
Qed.

End Rendering.

(** ** The keyword options *)

Section KeywordOptions.
Context `{Colors}.

Lemma deref_with_kwarg k v s :
  deref (plotting_func_kwargs (self s)) (with_kwarg k v s)
  = <[k := v]> (deref (plotting_func_kwargs (self s)) s).
Proof. unfold deref, with_kwarg. cbn. by rewrite lookup_insert_eq. Qed.

(** What lines 120-125 do to the dictionary they find: an entry that is
    there stays, a missing [color] becomes ["experiment_id"], a missing
    [color_discrete_sequence] the colour scale for the number of experiments. *)
Lemma inject_state_lookup es s :
  let kw := deref (plotting_func_kwargs (self s)) s in
  let kw' := deref (plotting_func_kwargs (self s)) (inject_state es s) in
  kw' !! "color" = Some (default (KwStr "experiment_id") (kw !! "color"))
  ∧ kw' !! "color_discrete_sequence"
    = Some (default (KwSeq (get_rubicon_colorscale (length es)))
              (kw !! "color_discrete_sequence"))
  ∧ ∀ k, k ≠ "color" → k ≠ "color_discrete_sequence" → kw' !! k = kw !! k.
Proof.
  cbn zeta. unfold inject_state.
  destruct (deref (plotting_func_kwargs (self s)) s !! "color") as [c|] eqn:Hc.
  - destruct (deref (plotting_func_kwargs (self s)) s !! "color_discrete_sequence")
      as [q|] eqn:Hq.
    + by rewrite Hc, Hq.
    + rewrite !deref_with_kwarg. split_and!; [by simplify_map_eq..|].
      intros k ? ?. by simplify_map_eq.
  - cbn [self with_kwarg]. rewrite !deref_with_kwarg.
    rewrite lookup_insert_ne by done.
    destruct (deref (plotting_func_kwargs (self s)) s !! "color_discrete_sequence")
      as [q|] eqn:Hq.
    + rewrite !deref_with_kwarg. split_and!; [by simplify_map_eq..|].
      intros k ? ?. by simplify_map_eq.
    + pose proof (deref_with_kwarg "color_discrete_sequence"
                    (KwSeq (get_rubicon_colorscale (length es)))
                    (with_kwarg "color" (KwStr "experiment_id") s)) as Hd.
      cbn [self with_kwarg] in Hd. rewrite Hd, !deref_with_kwarg.
      split_and!; [by simplify_map_eq..|]. intros k ? ?. by simplify_map_eq.
Qed.

(** X19.  A load that gets past the loop has written these defaults into the
    dictionary [self.plotting_func_kwargs] refers to: an entry that was
    there stays, a missing [color] is ["experiment_id"], a missing
    [color_discrete_sequence] is the colour scale for the number of
    experiments, and no other key changes. *)
Lemma load_injects_defaults s es os :
  experiments (self s) = Some es →
  Forall2 (fetches (dataframe_name (self s))) es os →
  Forall (λ t, y_resolvable (self s) (pd.columns t)) (omap id os) →
  let kw := deref (plotting_func_kwargs (self s)) s in
  let kw' := deref (plotting_func_kwargs (self s)) (load_experiment_data s).1 in
  kw' !! "color" = Some (default (KwStr "experiment_id") (kw !! "color"))
  ∧ kw' !! "color_discrete_sequence"
    = Some (default (KwSeq (get_rubicon_colorscale (length es)))
              (kw !! "color_discrete_sequence"))
  ∧ ∀ k, k ≠ "color" → k ≠ "color_discrete_sequence" → kw' !! k = kw !! k.
Proof.
  intros Hes Hf Hy. cbn zeta. rewrite (load_run s es os Hes Hf Hy), check_found_state.
  set (s1 := loop_state _ _).
  destruct (loop_state_frame (zip es os) (with_self (set_data_df PyNone) s))
    as (_ & _ & Hloc & Hdicts). fold s1 in Hloc, Hdicts. cbn in Hloc, Hdicts.
  pose proof (inject_state_lookup es s1) as Hlook. cbn zeta in Hlook.
  rewrite Hloc in Hlook. unfold deref at 2 4 6 in Hlook. rewrite Hdicts in Hlook.
  exact Hlook.
Qed.

(** C8 (defect in the code).  Two widgets are built without
    [plotting_func_kwargs], the first over two experiments, the second over
    three, and loaded one after the other.  Both loads return normally; the
    second widget was given no colour sequence of its own, yet after its load
    its options hold the sequence computed for the two experiments of the
    first widget: both refer to the one dictionary that is the default of the
    parameter, and the first load wrote into it. *)
Theorem second_widget_inherits_colour_sequence :
  let first := load_experiment_data (session [run_a; run_b]) in
  let second := load_experiment_data (fresh (widget [run_a; run_b; run_c]) (dicts first.1)) in
  first.2 = Ok tt
  ∧ second.2 = Ok tt
  ∧ deref (plotting_func_kwargs (self second.1)) second.1 !! "color_discrete_sequence"
    = Some (KwSeq (get_rubicon_colorscale 2)).
Proof. cbn zeta. split_and!; vm_compute; reflexivity. Qed.

End KeywordOptions.

(** ** Instances on the sample session *)

Example header_text_0 :
  header_text "metrics" 0 = "showing dataframe 'metrics' over 0 experiments".
Proof. reflexivity. Qed.

Example header_text_1 :
  header_text "metrics" 1 = "showing dataframe 'metrics' over 1 experiment".
Proof. reflexivity. Qed.

Example header_text_12 :
  header_text "metrics" 12 = "showing dataframe 'metrics' over 12 experiments".
Proof. reflexivity. Qed.

(** The header of [layout] counts the configured experiments. *)
Example layout_header_1 :
  (layout_header (session [run_a])).2
  = Ok "showing dataframe 'metrics' over 1 experiment".
Proof. reflexivity. Qed.

(** A dataframe with a single column: the default for [y] is the
    [experiment_id] column the load itself added. *)
Example single_column_axes :
  let s := (load_experiment_data (H := sample_colors)
              (session [logged "ffffffff-6666"
                          {| pd.columns := ["loss"]; pd.rows := [{[ "loss" := CNum 3 ]}] |}])).1 in
  x (self s) = Some "loss" ∧ y (self s) = Some "experiment_id".
Proof. by vm_compute. Qed.

(** A dataframe without columns: there is no default for [y], and the
    lookup of the second column name ends the load. *)
Example no_column_raises :
  (load_experiment_data (H := sample_colors)
     (session [logged "ffffffff-6666" {| pd.columns := []; pd.rows := [∅; ∅] |}])).2
  = Raise IndexError.
Proof. by vm_compute. Qed.

Lemma load_no_dataframe_found_witness :
  experiments (self (session [run_bare; run_bare])) = Some [run_bare; run_bare]
  ∧ Forall (lacks "metrics") [run_bare; run_bare]
  ∧ ∃ s', load_experiment_data (H := sample_colors) (session [run_bare; run_bare])
          = (s', Raise (Exception "No dataframe with name metrics found!"))
          ∧ data_df (self s') = PyNone
          ∧ warnings_log s' = missing_warning <$> [run_bare; run_bare].
Proof.
  assert (H1 : experiments (self (session [run_bare; run_bare])) = Some [run_bare; run_bare])
    by reflexivity.
  assert (H2 : Forall (lacks "metrics") [run_bare; run_bare])
    by (repeat constructor; eexists; reflexivity).
  split; [exact H1|]. split; [exact H2|].
  exact (load_no_dataframe_found (H := sample_colors) _ _ H1 H2).
Defined.


Lemma load_skips_missing_experiment_witness :
  experiments (self (session [run_a; run_bare; run_b])) = Some ([run_a] ++ run_bare :: [run_b])
  ∧ lacks "metrics" run_bare
  ∧ Forall2 (yields "metrics") [run_a] [metrics_a]
  ∧ Forall2 (yields "metrics") [run_b] [metrics_b]
  ∧ ∃ s' df,
      load_experiment_data (H := sample_colors) (session [run_a; run_bare; run_b])
      = (s', Ok tt)
      ∧ data_df (self s') = Val df
      ∧ pd.rows df = concat (zip_with tagged_rows [run_a; run_b] [metrics_a; metrics_b])
      ∧ warnings_log s'
        = ["Experiment eeeeeeee-5555 does not have any dataframes logged to it."].
Proof.
  assert (H1 : experiments (self (session [run_a; run_bare; run_b]))
               = Some ([run_a] ++ run_bare :: [run_b])) by reflexivity.
  assert (H2 : lacks "metrics" run_bare) by (eexists; reflexivity).
  assert (H3 : Forall2 (yields "metrics") [run_a] [metrics_a])
    by (repeat constructor; eexists; split; reflexivity).
  assert (H4 : Forall2 (yields "metrics") [run_b] [metrics_b])
    by (repeat constructor; eexists; split; reflexivity).
  assert (H5 : Forall (λ t, y_resolvable (self (session [run_a; run_bare; run_b]))
                              (pd.columns t)) ([metrics_a] ++ [metrics_b]))
    by (repeat constructor; right; vm_compute; lia).
  assert (H6 : ∃ t, t ∈ [metrics_a] ++ [metrics_b] ∧ pd.rows t ≠ [])
    by (exists metrics_a; split; [apply list_elem_of_here|discriminate]).
  split; [exact H1|]. split; [exact H2|]. split; [exact H3|]. split; [exact H4|].
  exact (load_skips_missing_experiment (H := sample_colors) _ _ _ _ _ _ H1 H2 H3 H4 H5 H6).
Defined.

(** C3 as stated fails.  One of two experiments lacks the dataframe and the
    other yields one, without rows: the load raises.  So it does when the
    failing experiment is the only one. *)
Lemma load_with_one_missing_can_raise :
  experiments (self (session [run_bare; run_quiet])) = Some ([] ++ run_bare :: [run_quiet])
  ∧ lacks "metrics" run_bare
  ∧ Forall2 (yields "metrics") [run_quiet] [metrics_none]
  ∧ (load_experiment_data (H := sample_colors) (session [run_bare; run_quiet])).2
    = Raise ValueError
  ∧ (load_experiment_data (H := sample_colors) (session [run_bare])).2
    = Raise (Exception "No dataframe with name metrics found!").
Proof.
  split; [reflexivity|]. split; [eexists; reflexivity|].
  split; [repeat constructor; eexists; split; reflexivity|].
  split; vm_compute; reflexivity.
Qed.

Lemma load_infers_axes_once_witness :
  experiments (self (session [run_bare; run_a; run_b])) = Some ([run_bare] ++ run_a :: [run_b])
  ∧ x (self (session [run_bare; run_a; run_b])) = None
  ∧ y (self (session [run_bare; run_a; run_b])) = None
  ∧ Forall (lacks "metrics") [run_bare]
  ∧ yields "metrics" run_a metrics_a
  ∧ pd.columns metrics_a = "step" :: "loss" :: []
  ∧ x (self (load_experiment_data (H := sample_colors)
               (session [run_bare; run_a; run_b])).1) = Some "step"
  ∧ y (self (load_experiment_data (H := sample_colors)
               (session [run_bare; run_a; run_b])).1) = Some "loss".
Proof.
  assert (H1 : experiments (self (session [run_bare; run_a; run_b]))
               = Some ([run_bare] ++ run_a :: [run_b])) by reflexivity.
  assert (H2 : x (self (session [run_bare; run_a; run_b])) = None) by reflexivity.
  assert (H3 : y (self (session [run_bare; run_a; run_b])) = None) by reflexivity.
  assert (H4 : Forall (lacks "metrics") [run_bare])
    by (repeat constructor; eexists; reflexivity).
  assert (H5 : yields "metrics" run_a metrics_a) by (eexists; split; reflexivity).
  assert (H6 : pd.columns metrics_a = "step" :: "loss" :: []) by reflexivity.
  split; [exact H1|]. split; [exact H2|]. split; [exact H3|]. split; [exact H4|].
  split; [exact H5|]. split; [exact H6|].
  exact (load_infers_axes_once (H := sample_colors) _ _ _ _ _ _ _ _ H1 H2 H3 H4 H5 H6).
Defined.


Lemma legend_labels_at_most_7_witness :
  update_dataframe_plot (H := sample_colors) true [DNone; DList ["bbbbbbbb-2222"]] loaded
  = (loaded, Ok (shown_b, "showing dataframe 'metrics' over 1 experiment"))
  ∧ Forall (λ t, ∃ n, name t = Some n ∧ String.length n ≤ 7) (data shown_b).
Proof.
  assert (H1 : update_dataframe_plot (H := sample_colors) true
                 [DNone; DList ["bbbbbbbb-2222"]] loaded
               = (loaded, Ok (shown_b, "showing dataframe 'metrics' over 1 experiment")))
    by (vm_compute; reflexivity).
  split; [exact H1|].
  exact (legend_labels_at_most_7 (H := sample_colors) _ _ _ _ _ _ H1).
Defined.

Lemma header_counts_selected_witness :
  update_dataframe_plot (H := sample_colors) true [DNone; DNone] loaded
  = (loaded,
     Ok ({| data := []; margin_t := Some 30%Z; plot_bgcolor := Some "background-blue" |},
         "showing dataframe 'metrics' over 0 experiments"))
  ∧ ∃ ids,
      selected_row_ids true [DNone; DNone] loaded = (loaded, Ok ids)
      ∧ (length ids = 1 →
         "showing dataframe 'metrics' over 0 experiments"
         = "showing dataframe '" +:+ dataframe_name (self loaded) +:+ "' over 1 experiment")
      ∧ (length ids ≠ 1 →
         "showing dataframe 'metrics' over 0 experiments"
         = "showing dataframe '" +:+ dataframe_name (self loaded) +:+ "' over "
           +:+ str_of_nat (length ids) +:+ " experiments").
Proof.
  assert (H1 : update_dataframe_plot (H := sample_colors) true [DNone; DNone] loaded
               = (loaded,
                  Ok ({| data := []; margin_t := Some 30%Z;
                         plot_bgcolor := Some "background-blue" |},
                      "showing dataframe 'metrics' over 0 experiments")))
    by (vm_compute; reflexivity).
  split; [exact H1|].
  exact (header_counts_selected (H := sample_colors) _ _ _ _ _ _ H1).
Defined.

Lemma render_plots_active_rows_witness :
  update_dataframe_plot (H := sample_colors) true [DNone; DList ["bbbbbbbb-2222"]] loaded
  = (loaded, Ok (shown_b, "showing dataframe 'metrics' over 1 experiment"))
  ∧ ∃ ids d table raw,
      (∃ v, last [DNone; DList ["bbbbbbbb-2222"]] = Some v
            ∧ ids = match v with DNone => [] | DList l => l end)
      ∧ data_df (self loaded) = Val d
      ∧ pd.columns table = pd.columns d
      ∧ pd.rows table = filter (λ r, pd.isin "experiment_id" ids r = true) (pd.rows d)
      ∧ (∀ r, r ∈ pd.rows table ↔
               r ∈ pd.rows d ∧ ∃ i, r !! "experiment_id" = Some (CStr i) ∧ i ∈ ids)
      ∧ plotting_func (self loaded) table (x (self loaded)) (y (self loaded))
          (deref (plotting_func_kwargs (self loaded)) loaded) = Ok raw
      ∧ truncate_names (data raw) = Ok (data shown_b).
Proof.
  assert (H1 : update_dataframe_plot (H := sample_colors) true
                 [DNone; DList ["bbbbbbbb-2222"]] loaded
               = (loaded, Ok (shown_b, "showing dataframe 'metrics' over 1 experiment")))
    by (vm_compute; reflexivity).
  split; [exact H1|].
  exact (render_plots_active_rows (H := sample_colors) _ _ _ _ _ _ H1).
Defined.

(** ** Layout and callback registration: properties *)

Section Layout.
Context `{Colors}.

Lemma layout_returns s s' c :
  layout s = (s', Ok c) →
  ∃ es, experiments (self s) = Some es ∧ s' = s
        ∧ c = Element "html.Div" {[ "id" := "dataframe-plot-layout-container" ]}
                [ Element "html.Div" {[ "id" := "dummy-callback-trigger" ]} [];
                  Element "dbc.Row" {[ "className" := "header-row" ]}
                    [ Element "html.H5" {[ "id" := "header-text" ]}
                        [Text (header_text (dataframe_name (self s)) (length es))] ];
                  Element "dcc.Loading" {[ "color" := light_blue ]}
                    [ Element "dcc.Graph" {[ "id" := "dataframe-plot" ]} [] ] ].
Proof.
  unfold layout, layout_header, experiments_list. run.
  destruct (experiments (self s)) as [es|]; [|done]. run. intros [= <- <-]. by exists es.
Qed.

(** X1.  In the tree [layout] returns no id occurs twice, every component
    the unlinked callback declares as an output or an input is there, and no
    component has the id [experiment-table]: the input of the linked
    callback has to come from another widget. *)
Theorem layout_ids_match_callback s s' c :
  layout s = (s', Ok c) →
  NoDup (component_ids c)
  ∧ (∀ d, d ∈ callback_outputs ++ callback_inputs false → d.1 ∈ component_ids c)
  ∧ "experiment-table" ∉ component_ids c.
Proof.
  intros Hl. destruct (layout_returns _ _ _ Hl) as (es & _ & _ & ->).
  assert (Hids : component_ids
            (Element "html.Div" {[ "id" := "dataframe-plot-layout-container" ]}
                [ Element "html.Div" {[ "id" := "dummy-callback-trigger" ]} [];
                  Element "dbc.Row" {[ "className" := "header-row" ]}
                    [ Element "html.H5" {[ "id" := "header-text" ]}
                        [Text (header_text (dataframe_name (self s)) (length es))] ];
                  Element "dcc.Loading" {[ "color" := light_blue ]}
                    [ Element "dcc.Graph" {[ "id" := "dataframe-plot" ]} [] ] ])
          = ["dataframe-plot-layout-container"; "dummy-callback-trigger";
             "header-text"; "dataframe-plot"]).
  { cbn [component_ids map concat app]. rewrite !lookup_singleton_eq.
    do 2 rewrite lookup_singleton_ne by done. reflexivity. }
  rewrite Hids. clear. split; [|split].
  - by apply (bool_decide_unpack _).
  - intros d Hd. apply list_elem_of_In in Hd. cbn in Hd.
    destruct Hd as [<-|[<-|[<-|[]]]]; cbn; by apply (bool_decide_unpack _).
  - by apply (bool_decide_unpack _).
Qed.

(** X2.  The header text [layout] puts into the [header-text] component is
    the header text the unlinked callback returns for the same widget: the
    first render does not change the header. *)
Theorem layout_header_is_unlinked_header s s' c args s'' fig header :
  layout s = (s', Ok c) →
  update_dataframe_plot false args s = (s'', Ok (fig, header)) →
  children_of "header-text" c = Some [Text header].
Proof.
  intros Hl Hu. destruct (layout_returns _ _ _ Hl) as (es & Hes & _ & ->).
  destruct (update_dataframe_plot_returns _ _ _ _ _ _ Hu)
    as (ids & d & table & raw & traces & Hsel & _ & _ & _ & _ & _ & -> & _).
  apply selected_row_ids_spec in Hsel as (es' & Hes' & ->).
  rewrite Hes in Hes'. injection Hes' as <-. rewrite length_fmap.
  cbn [children_of map omap list_omap head].
  rewrite decide_False by (by rewrite lookup_singleton_eq).
  rewrite decide_False by (by rewrite lookup_singleton_eq).
  cbn. 
  rewrite decide_False by (by rewrite lookup_singleton_ne).
  rewrite decide_True by (by rewrite lookup_singleton_eq). done.
Qed.

(** X3.  When the linked callback is called with one argument per declared
    input and state, the arguments are bound to the trigger and to the
    selected row ids of the experiment table, [args[-1]] is that selection
    (so the lookup cannot fail), and the active identifiers are the
    selection, [None] counting as empty. *)
Theorem linked_selection_is_last_input args s :
  length args = length (callback_inputs true ++ callback_states) →
  ∃ trigger selection,
    zip (callback_inputs true ++ callback_states) args
    = [ (("dummy-callback-trigger", "children"), trigger);
        (("experiment-table", "derived_virtual_selected_row_ids"), selection) ]
    ∧ selected_row_ids true args s = (s, Ok (as_ids selection)).
Proof.
  destruct args as [|trigger [|selection [|? ?]]]; try done. intros _.
  exists trigger, selection. split; [done|].
  unfold selected_row_ids. cbn. run. by rewrite active_ids_linked.
Qed.

End Layout.

(** ** Loading: what holds on every path *)

Section LoadingPaths.
Context `{Colors}.

Lemma inject_defaults_preserves P :
  (∀ k v s, P s → P (with_kwarg k v s)) → preserves P inject_defaults.
Proof.
  intros Hk. unfold preserves, inject_defaults, experiments_list.
  split_block; intros HP; cbn; auto.
Qed.

Lemma load_experiment_data_preserves P :
  (∀ s, P s → P (with_self (set_data_df PyNone) s)) →
  (∀ msg s, P s → P (with_warning msg s)) →
  (∀ d, preserves P (default_x d)) →
  (∀ d, preserves P (default_y d)) →
  (∀ d, preserves P (accumulate d)) →
  preserves P inject_defaults →
  preserves P load_experiment_data.
Proof.
  intros Hreset Hw Hx Hy Ha Hi. unfold load_experiment_data.
  apply preserves_bind; [by intros s HP; apply Hreset|]. intros _.
  apply preserves_bind.
  { apply preserves_pure. intros s. unfold experiments_list. run.
    by destruct (experiments (self s)). }
  intros es. apply preserves_bind.
  { apply preserves_for_each. intros e. by apply load_body_preserves. }
  intros _. apply preserves_bind; [done|]. intros _.
  apply preserves_pure, check_found_state.
Qed.

(** X4.  A value [x] (or [y]) holds when [load_experiment_data] starts is
    still there when it ends, however it ends: only an axis that is [None]
    is ever inferred. *)
Theorem load_keeps_configured_axes s :
  (∀ cx, x (self s) = Some cx → x (self (load_experiment_data s).1) = Some cx)
  ∧ (∀ cy, y (self s) = Some cy → y (self (load_experiment_data s).1) = Some cy).
Proof.
  split.
  - intros cx Hx. revert s Hx.
    apply (load_experiment_data_preserves (λ s, x (self s) = Some cx)); try done.
    + intros d. unfold preserves, default_x. split_block; intros ?; by simplify_eq.
    + intros d. unfold preserves, default_y. by split_block.
    + intros d. unfold preserves, accumulate. by split_block.
    + by apply inject_defaults_preserves.
  - intros cy Hy. revert s Hy.
    apply (load_experiment_data_preserves (λ s, y (self s) = Some cy)); try done.
    + intros d. unfold preserves, default_x. by split_block.
    + intros d. unfold preserves, default_y. split_block; intros ?; by simplify_eq.
    + intros d. unfold preserves, accumulate. by split_block.
    + by apply inject_defaults_preserves.
Qed.

Lemma blocks_framed w store d :
  preserves (framed w store) (default_x d)
  ∧ preserves (framed w store) (default_y d)
  ∧ preserves (framed w store) (accumulate d).
Proof.
  split_and!; unfold preserves, framed, default_x, default_y, accumulate; by split_block.
Qed.

Lemma load_body_framed w store e : preserves (framed w store) (load_body e).
Proof. apply load_body_preserves; try done; intros d; apply blocks_framed. Qed.

(** X5.  However [load_experiment_data] ends, it has not changed
    [dataframe_name], [experiments], [plotting_func] or the dictionary
    [plotting_func_kwargs] refers to, and every other dictionary in the store
    is as it was. *)
Theorem load_frame s :
  framed (self s) (dicts s) (load_experiment_data s).1.
Proof.
  apply (load_experiment_data_preserves (framed (self s) (dicts s))); try done;
    try (intros d; apply blocks_framed).
  apply inject_defaults_preserves. intros k v s' (?&?&?&Hk&Hd). split_and!; try done.
  intros l Hl. cbn. rewrite lookup_insert_ne; [by apply Hd|by rewrite Hk].
Qed.

Lemma inject_defaults_complete s :
  is_Some (deref (plotting_func_kwargs (self s)) s !! "color") →
  is_Some (deref (plotting_func_kwargs (self s)) s !! "color_discrete_sequence") →
  inject_defaults s = (s, Ok tt).
Proof.
  intros [c Hc] [q Hq]. unfold inject_defaults. run. rewrite Hc. run. by rewrite Hq.
Qed.

Lemma blocks_pinned store k d :
  preserves (pinned store k) (default_x d)
  ∧ preserves (pinned store k) (default_y d)
  ∧ preserves (pinned store k) (accumulate d).
Proof.
  split_and!; unfold preserves, pinned, default_x, default_y, accumulate; by split_block.
Qed.

(** X6.  If the options dictionary already has a [color] and a
    [color_discrete_sequence] entry, [load_experiment_data] leaves the whole
    store of dictionaries as it is, on every path and whatever the
    experiments are. *)
Theorem load_keeps_complete_options s :
  is_Some (deref (plotting_func_kwargs (self s)) s !! "color") →
  is_Some (deref (plotting_func_kwargs (self s)) s !! "color_discrete_sequence") →
  dicts (load_experiment_data s).1 = dicts s.
Proof.
  intros Hc Hq.
  enough (pinned (dicts s) (plotting_func_kwargs (self s)) (load_experiment_data s).1)
    as [? _] by done.
  apply (load_experiment_data_preserves (pinned (dicts s) (plotting_func_kwargs (self s))));
    try done; try (intros d; apply blocks_pinned).
  intros s' [Hd Hk]. rewrite inject_defaults_complete; [done|..];
    unfold deref; by rewrite Hd, Hk.
Qed.

End LoadingPaths.

(** ** Loading: any mix of outcomes *)

Section LoadingOutcomes.
Context `{Colors}.








Lemma load_body_get_data_raises e s h ex :
  Experiment.dataframe e (dataframe_name (self s)) = Ok h →
  Dataframe.get_data h = Raise ex →
  load_body e s = (s, Raise ex).
Proof. intros Hh Hg. unfold load_body. run. rewrite Hh. run. by rewrite Hg. Qed.

(** X9.  If [get_data()] raises for an experiment whose entity was fetched,
    the load raises that same exception at once: the table and the warnings
    are those of the experiments before it, the later experiments are not
    visited, and the options dictionary has not been written. *)
Theorem load_get_data_failure s es1 e es2 os1 h ex :
  experiments (self s) = Some (es1 ++ e :: es2) →
  Forall2 (fetches (dataframe_name (self s))) es1 os1 →
  Forall (λ t, y_resolvable (self s) (pd.columns t)) (omap id os1) →
  Experiment.dataframe e (dataframe_name (self s)) = Ok h →
  Dataframe.get_data h = Raise ex →
  (load_experiment_data s).2 = Raise ex
  ∧ dicts (load_experiment_data s).1 = dicts s
  ∧ warnings_log (load_experiment_data s).1 = warnings_log s ++ misses (zip es1 os1)
  ∧ attr_rows (data_df (self (load_experiment_data s).1))
    = concat (pd.rows <$> contributions (zip es1 os1)).
Proof.
  intros Hes Hf Hy Hh Hg.
  set (s0 := with_self (set_data_df PyNone) s). set (l := zip es1 os1).
  destruct (loop_state_frame l s0) as (Hname & _ & _ & Hdicts).
  assert (Hrun : load_experiment_data s = (loop_state l s0, Raise ex)).
  { unfold load_experiment_data, experiments_list. run. rewrite Hes. run. fold s0.
    rewrite for_each_app, (for_each_load es1 os1) by done. fold l.
    cbn [for_each]. run. rewrite (load_body_get_data_raises e _ h ex); [done| |done].
    by rewrite Hname. }
  rewrite Hrun. cbn [fst snd]. split_and!; [done|done|..].
  - by rewrite loop_state_warnings.
  - by rewrite loop_state_data, merge_rows.
Qed.

Lemma setitem_columns_short cols c :
  length (pd.setitem_columns cols c) < 2 → pd.setitem_columns cols c = [c].
Proof.
  unfold pd.setitem_columns. case_decide as Hin.
  - destruct cols as [|c0 [|c1 cols]]; cbn; try lia; [by apply elem_of_nil in Hin|].
    intros _. by apply list_elem_of_singleton in Hin as ->.
  - destruct cols as [|c0 cols]; cbn; [done|]. rewrite length_app. cbn. lia.
Qed.

(** X10.  If [y] is not set and the first dataframe that is yielded has no
    second column once tagged, the load raises [IndexError]; by then [x] has
    been given its default ([experiment_id] if it was not set), while [y],
    the table and the options dictionary are untouched. *)
Theorem load_without_second_column s es1 e es2 t :
  experiments (self s) = Some (es1 ++ e :: es2) →
  y (self s) = None →
  Forall (lacks (dataframe_name (self s))) es1 →
  yields (dataframe_name (self s)) e t →
  length (pd.setitem_columns (pd.columns t) "experiment_id") < 2 →
  (load_experiment_data s).2 = Raise IndexError
  ∧ x (self (load_experiment_data s).1) = Some (default "experiment_id" (x (self s)))
  ∧ y (self (load_experiment_data s).1) = None
  ∧ data_df (self (load_experiment_data s).1) = PyNone
  ∧ dicts (load_experiment_data s).1 = dicts s.
Proof.
  intros Hes Hy Hlack (h & Hh & Hg) Hshort. apply setitem_columns_short in Hshort.
  set (s0 := with_self (set_data_df PyNone) s).
  set (l := zip es1 ((λ _, @None pd.DataFrame) <$> es1)).
  pose proof (loop_state_missing_self es1 s0) as Hself. fold l in Hself.
  destruct (loop_state_frame l s0) as (_ & _ & _ & Hdicts).
  assert (Hloop : for_each es1 load_body s0 = (loop_state l s0, Ok tt)).
  { apply for_each_load; [by apply Forall2_missing|done|by rewrite omap_id_missing]. }
  unfold load_experiment_data, experiments_list. run. rewrite Hes. run. fold s0.
  rewrite for_each_app, Hloop. cbn [for_each]. run.
  unfold load_body, default_x, default_y. run. rewrite Hself. cbn. rewrite Hh. run.
  rewrite Hg. run. rewrite Hself. cbn. rewrite Hshort.
  destruct (x (self s)) as [cx|] eqn:Hx; run; rewrite ?Hself; cbn; rewrite Hy; run;
    rewrite ?Hself; cbn; by rewrite ?Hx.
Qed.

End LoadingOutcomes.

(** ** Loading twice *)

Section Reloading.
Context `{Colors}.











End Reloading.

(** ** Rendering after loading *)

Section RenderingLoaded.
Context `{Colors}.









Lemma str_take_prefix n str : ∃ rest, str = str_take n str +:+ rest.
Proof.
  revert str. induction n as [|n IH]; intros [|c str]; cbn; eauto.
  destruct (IH str) as [rest Hrest]. exists rest.
  change (String c str = String c (str_take n str +:+ rest)). by f_equal.
Qed.

(** X13.  The figure the callback returns has the traces of the plotting
    routine's figure, in the same order and with the same points; each label
    is a prefix of the routine's label, unchanged if that had at most 7
    characters; the top margin is 30 and the background colour is
    [plot_background_blue], whatever the routine had set. *)
Theorem render_postprocessing link args s s' fig header :
  update_dataframe_plot link args s = (s', Ok (fig, header)) →
  ∃ table raw,
    plotting_func (self s) table (x (self s)) (y (self s))
      (deref (plotting_func_kwargs (self s)) s) = Ok raw
    ∧ margin_t fig = Some 30%Z
    ∧ plot_bgcolor fig = Some plot_background_blue
    ∧ Forall2 (λ t t', points t' = points t
                       ∧ ∃ n, name t = Some n
                              ∧ name t' = Some (str_take 7 n)
                              ∧ (∃ rest, n = str_take 7 n +:+ rest)
                              ∧ (String.length n ≤ 7 → name t' = name t))
        (data raw) (data fig).
Proof.
  intros Hrun.
  destruct (update_dataframe_plot_returns _ _ _ _ _ _ Hrun)
    as (ids & d & table & raw & traces & _ & _ & _ & Hp & Htr & -> & _).
  exists table, raw. split_and!; try done. cbn [data].
  apply truncate_names_spec in Htr.
  eapply Forall2_impl; [exact Htr|]. intros t t' (n & Hn & Hn' & Hpts).
  split; [done|]. exists n. split_and!; try done.
  - apply str_take_prefix.
  - intros Hlen. by rewrite Hn, Hn', str_take_short.
Qed.

Lemma truncate_names_nameless ts :
  Exists (λ t, name t = None) ts → truncate_names ts = Raise TypeError.
Proof.
  induction 1 as [t ts Ht|t ts Hex IH]; cbn [truncate_names]; unfold truncate_name.
  - by rewrite Ht.
  - destruct (name t); [|done]. by rewrite IH.
Qed.

(** X14.  If the plotting routine returns a figure with a trace whose name
    is [None], the callback raises [TypeError] instead of returning. *)
Theorem render_nameless_trace link args s ids table raw :
  selected_row_ids link args s = (s, Ok ids) →
  filtered_data ids s = (s, Ok table) →
  plotting_func (self s) table (x (self s)) (y (self s))
    (deref (plotting_func_kwargs (self s)) s) = Ok raw →
  Exists (λ t, name t = None) (data raw) →
  update_dataframe_plot link args s = (s, Raise TypeError).
Proof.
  intros Hsel Hf Hp Hex. unfold update_dataframe_plot.
  unfold mbind at 1, M_bind at 1. rewrite Hsel. run. rewrite Hf. run. rewrite Hp. run.
  by rewrite truncate_names_nameless.
Qed.

Lemma selection_succeeds link args s :
  (if link : bool then args ≠ [] else is_Some (experiments (self s))) →
  ∃ ids, selected_row_ids link args s = (s, Ok ids).
Proof.
  unfold selected_row_ids, experiments_list. destruct link; run.
  - intros Hargs. destruct (last args) as [v|] eqn:Hlast; [eauto|].
    by apply last_None in Hlast.
  - intros [es ->]. run. eauto.
Qed.

Lemma render_without_table link args s :
  (if link : bool then args ≠ [] else is_Some (experiments (self s))) →
  (data_df (self s) = Unset →
   update_dataframe_plot link args s = (s, Raise AttributeError))
  ∧ (data_df (self s) = PyNone →
     update_dataframe_plot link args s = (s, Raise TypeError)).
Proof.
  intros Hsel. destruct (selection_succeeds link args s Hsel) as [ids Hids].
  split; intros Hd; unfold update_dataframe_plot; unfold mbind at 1, M_bind at 1;
    rewrite Hids; unfold filtered_data; run; by rewrite Hd.
Qed.

Lemma load_lacking_state s es :
  experiments (self s) = Some es →
  Forall (lacks (dataframe_name (self s))) es →
  experiments (self (load_experiment_data s).1) = Some es
  ∧ data_df (self (load_experiment_data s).1) = PyNone.
Proof.
  intros Hes Hlack.
  rewrite (load_run s es ((λ _, None) <$> es) Hes);
    [|by apply Forall2_missing|by rewrite omap_id_missing].
  rewrite check_found_state.
  set (s0 := with_self (set_data_df PyNone) s).
  set (l := zip es ((λ _, @None pd.DataFrame) <$> es)).
  destruct (inject_state_frame es (loop_state l s0)) as [-> _].
  destruct (loop_state_frame l s0) as (_ & -> & _).
  split; [done|]. rewrite loop_state_data. unfold l. by rewrite contributions_missing.
Qed.

(** X15.  After a load in which no experiment yielded the dataframe (the
    load raised, [data_df] is [None]) the callback raises [TypeError]. *)
Theorem render_after_failed_load s es link args :
  experiments (self s) = Some es →
  Forall (lacks (dataframe_name (self s))) es →
  (if link : bool then args ≠ [] else True) →
  update_dataframe_plot link args (load_experiment_data s).1
  = ((load_experiment_data s).1, Raise TypeError).
Proof.
  intros Hes Hlack Hargs.
  destruct (load_lacking_state s es Hes Hlack) as [He Hd].
  apply render_without_table; [|done].
  destruct link; [done|]. rewrite He. eauto.
Qed.


(** X17.  With [experiments] left at [None], [layout] raises [TypeError],
    [load_experiment_data] raises [TypeError] having reset [data_df] to
    [None] and nothing else, and the unlinked callback raises [TypeError]. *)
Theorem experiments_left_unset s :
  experiments (self s) = None →
  (layout s).2 = Raise TypeError
  ∧ load_experiment_data s = (with_self (set_data_df PyNone) s, Raise TypeError)
  ∧ ∀ args, update_dataframe_plot false args s = (s, Raise TypeError).
Proof.
  intros Hes. split_and!.
  - unfold layout, layout_header, experiments_list. run. by rewrite Hes.
  - unfold load_experiment_data, experiments_list. run. by rewrite Hes.
  - intros args. unfold update_dataframe_plot, selected_row_ids, experiments_list. run.
    by rewrite Hes.
Qed.

End RenderingLoaded.

(** ** Loading: what it can raise *)

Section LoadingRaises.
Context `{Colors}.

Lemma load_body_assigned e : preserves (λ s, data_df (self s) ≠ Unset) (load_body e).
Proof.
  apply load_body_preserves; try done; intros d; unfold preserves.
  - unfold default_x. by split_block.
  - unfold default_y. by split_block.
  - unfold accumulate. by split_block.
Qed.

Lemma load_body_raises_assigned e s s' ex :
  data_df (self s) ≠ Unset →
  load_body e s = (s', Raise ex) →
  ∃ h, Experiment.dataframe e (dataframe_name (self s)) = Ok h
       ∧ (Dataframe.get_data h = Raise ex ∨ ex = IndexError).
Proof.
  intros Hd. unfold load_body, default_x, default_y, accumulate. run.
  destruct (Experiment.dataframe e (dataframe_name (self s))) as [h|ex0]; run; [|done].
  destruct (Dataframe.get_data h) as [t|ex0] eqn:Hg; run;
    [|intros [= _ <-]; by eauto].
  repeat (match goal with
          | |- context [match ?o with _ => _ end] =>
              lazymatch o with
              | context [match _ with _ => _ end] => fail
              | _ => destruct o eqn:?
              end
          end; run); intros [= ]; subst; by eauto.
Qed.

Lemma for_each_raises_assigned es s s' ex :
  data_df (self s) ≠ Unset →
  for_each es load_body s = (s', Raise ex) →
  ex = IndexError
  ∨ ∃ e h, e ∈ es ∧ Experiment.dataframe e (dataframe_name (self s)) = Ok h
           ∧ Dataframe.get_data h = Raise ex.
Proof.
  revert s. induction es as [|e es IH]; intros s Hd; [done|].
  cbn [for_each]. run. pose proof (load_body_named _ e s eq_refl) as Hn.
  pose proof (load_body_assigned e s Hd) as Hd'.
  destruct (load_body e s) as [s1 [[]|ex1]] eqn:Hbody.
  - intros Hrest. destruct (IH _ Hd' Hrest) as [->|(e' & h & Hin & Hh & Hg)]; [by left|].
    right. exists e', h. unfold named in Hn. cbn in Hn, Hh. rewrite Hn in Hh.
    split; [by right|done].
  - intros [= <- <-].
    destruct (load_body_raises_assigned _ _ _ _ Hd Hbody) as (h & Hh & [Hg| ->]); [|by left].
    right. exists e, h. split; [by left|done].
Qed.

Lemma check_found_raises s ex :
  data_df (self s) ≠ Unset →
  (check_found s).2 = Raise ex →
  ex = Exception (not_found_message (dataframe_name (self s))) ∨ ex = ValueError.
Proof.
  intros Hd. unfold check_found, data_df_empty, data_df_eq_None. run.
  destruct (data_df (self s)) as [| |d] eqn:Hd'; run; rewrite ?Hd'; [done|..].
  - intros [= <-]. by left.
  - destruct (pd.empty d); run; rewrite ?Hd'; [|done]. intros [= <-]. by right.
Qed.

(** X18.  Whatever [load_experiment_data] raises is one of: [TypeError],
    with [experiments] being [None]; [IndexError]; [ValueError]; the
    no-dataframe [Exception]; or the very exception [get_data()] raised for
    an experiment whose entity was fetched.  An exception raised by
    [experiment.dataframe] itself is never among them. *)
Theorem load_raises_only s s' ex :
  load_experiment_data s = (s', Raise ex) →
  (ex = TypeError ∧ experiments (self s) = None)
  ∨ ex = IndexError
  ∨ ex = ValueError
  ∨ ex = Exception ("No dataframe with name " +:+ dataframe_name (self s) +:+ " found!")
  ∨ ∃ es e h,
      experiments (self s) = Some es ∧ e ∈ es
      ∧ Experiment.dataframe e (dataframe_name (self s)) = Ok h
      ∧ Dataframe.get_data h = Raise ex.
Proof.
  unfold load_experiment_data, experiments_list. run.
  destruct (experiments (self s)) as [es|] eqn:Hes; run; [|intros [= _ <-]; by left].
  set (s0 := with_self (set_data_df PyNone) s).
  assert (Hd0 : data_df (self s0) ≠ Unset) by done.
  pose proof (preserves_for_each _ es load_body load_body_assigned s0 Hd0) as Hd1.
  pose proof (for_each_name es s0) as Hn1.
  assert (He1 : experiments (self (for_each es load_body s0).1) = Some es).
  { destruct (preserves_for_each (framed (self s0) (dicts s0)) es load_body
                (load_body_framed _ _) s0) as (_ & He & _); [done|]. by rewrite He. }
  destruct (for_each es load_body s0) as [s1 [[]|ex1]] eqn:Hloop; cbn in Hd1, Hn1, He1.
  - rewrite (inject_defaults_run s1 es He1).
    destruct (inject_state_frame es s1) as [Hself _].
    intros Hrun. right. right.
    destruct (check_found_raises (inject_state es s1) ex) as [->| ->].
    + by rewrite Hself.
    + by rewrite Hrun.
    + right. left. by rewrite Hself, Hn1.
    + by left.
  - intros [= _ <-]. right.
    destruct (for_each_raises_assigned es s0 _ _ Hd0 Hloop) as [->|(e & h & Hin & Hh & Hg)];
      [by left|].
    do 3 right. by exists es, e, h.
Qed.

End LoadingRaises.

(** ** Instances of the further properties *)

Lemma layout_ids_match_callback_witness :
  layout (H := sample_colors) (session [run_a])
  = (session [run_a], Ok (sample_tree "showing dataframe 'metrics' over 1 experiment"))
  ∧ NoDup (component_ids (sample_tree "showing dataframe 'metrics' over 1 experiment"))
  ∧ "experiment-table"
    ∉ component_ids (sample_tree "showing dataframe 'metrics' over 1 experiment").
Proof.
  assert (H1 : layout (H := sample_colors) (session [run_a])
               = (session [run_a],
                  Ok (sample_tree "showing dataframe 'metrics' over 1 experiment")))
    by reflexivity.
  split; [exact H1|].
  pose proof (layout_ids_match_callback (H := sample_colors) _ _ _ H1) as (Hnd & _ & Hout).
  exact (conj Hnd Hout).
Defined.

Lemma layout_header_is_unlinked_header_witness :
  layout (H := sample_colors) loaded
  = (loaded, Ok (sample_tree "showing dataframe 'metrics' over 3 experiments"))
  ∧ update_dataframe_plot (H := sample_colors) false [DNone] loaded
    = (loaded, Ok (shown_all, "showing dataframe 'metrics' over 3 experiments"))
  ∧ children_of "header-text"
      (sample_tree "showing dataframe 'metrics' over 3 experiments")
    = Some [Text "showing dataframe 'metrics' over 3 experiments"].
Proof.
  assert (H1 : layout (H := sample_colors) loaded
               = (loaded, Ok (sample_tree "showing dataframe 'metrics' over 3 experiments")))
    by (vm_compute; reflexivity).
  assert (H2 : update_dataframe_plot (H := sample_colors) false [DNone] loaded
               = (loaded, Ok (shown_all, "showing dataframe 'metrics' over 3 experiments")))
    by (vm_compute; reflexivity).
  split; [exact H1|]. split; [exact H2|].
  exact (layout_header_is_unlinked_header (H := sample_colors) _ _ _ _ _ _ _ H1 H2).
Defined.

Lemma linked_selection_is_last_input_witness :
  length [DNone; DList ["bbbbbbbb-2222"]] = length (callback_inputs true ++ callback_states)
  ∧ selected_row_ids true [DNone; DList ["bbbbbbbb-2222"]] loaded
    = (loaded, Ok ["bbbbbbbb-2222"]).
Proof.
  assert (H1 : length [DNone; DList ["bbbbbbbb-2222"]]
               = length (callback_inputs true ++ callback_states)) by reflexivity.
  split; [exact H1|].
  destruct (linked_selection_is_last_input [DNone; DList ["bbbbbbbb-2222"]] loaded H1)
    as (trigger & selection & Hzip & Hsel).
  injection Hzip as _ <-. exact Hsel.
Defined.

Lemma load_keeps_complete_options_witness :
  is_Some (deref (plotting_func_kwargs (widget [run_a; run_b; run_c]))
             (fresh (widget [run_a; run_b; run_c]) (dicts loaded)) !! "color")
  ∧ is_Some (deref (plotting_func_kwargs (widget [run_a; run_b; run_c]))
               (fresh (widget [run_a; run_b; run_c]) (dicts loaded))
             !! "color_discrete_sequence")
  ∧ dicts (load_experiment_data (H := sample_colors)
             (fresh (widget [run_a; run_b; run_c]) (dicts loaded))).1
    = dicts loaded.
Proof.
  assert (H1 : is_Some (deref (plotting_func_kwargs (widget [run_a; run_b; run_c]))
                          (fresh (widget [run_a; run_b; run_c]) (dicts loaded)) !! "color"))
    by (eexists; vm_compute; reflexivity).
  assert (H2 : is_Some (deref (plotting_func_kwargs (widget [run_a; run_b; run_c]))
                          (fresh (widget [run_a; run_b; run_c]) (dicts loaded))
                        !! "color_discrete_sequence"))
    by (eexists; vm_compute; reflexivity).
  split; [exact H1|]. split; [exact H2|].
  exact (load_keeps_complete_options (H := sample_colors)
           (fresh (widget [run_a; run_b; run_c]) (dicts loaded)) H1 H2).
Defined.



Lemma load_get_data_failure_witness :
  experiments (self (session [run_a; run_broken; run_b])) = Some ([run_a] ++ run_broken :: [run_b])
  ∧ Forall2 (fetches "metrics") [run_a] [Some metrics_a]
  ∧ Experiment.dataframe run_broken "metrics"
    = Ok {| Dataframe.get_data := Raise (Foreign "FileNotFoundError") |}
  ∧ (load_experiment_data (H := sample_colors) (session [run_a; run_broken; run_b])).2
    = Raise (Foreign "FileNotFoundError")
  ∧ dicts (load_experiment_data (H := sample_colors)
             (session [run_a; run_broken; run_b])).1
    = initial_dicts.
Proof.
  assert (H1 : experiments (self (session [run_a; run_broken; run_b]))
               = Some ([run_a] ++ run_broken :: [run_b])) by reflexivity.
  assert (H2 : Forall2 (fetches (dataframe_name (self (session [run_a; run_broken; run_b]))))
                 [run_a] [Some metrics_a])
    by (constructor; [eexists; split; reflexivity|constructor]).
  assert (H3 : Forall (λ t, y_resolvable (self (session [run_a; run_broken; run_b]))
                              (pd.columns t)) (omap id [Some metrics_a]))
    by (repeat constructor; right; vm_compute; lia).
  assert (H4 : Experiment.dataframe run_broken
                 (dataframe_name (self (session [run_a; run_broken; run_b])))
               = Ok {| Dataframe.get_data := Raise (Foreign "FileNotFoundError") |})
    by reflexivity.
  split; [exact H1|]. split; [exact H2|]. split; [exact H4|].
  destruct (load_get_data_failure (H := sample_colors) _ _ _ _ _ _ _ H1 H2 H3 H4 eq_refl)
    as (Hex & Hdicts & _).
  exact (conj Hex Hdicts).
Defined.

Lemma load_without_second_column_witness :
  experiments (self (session [run_bare; run_blank])) = Some ([run_bare] ++ run_blank :: [])
  ∧ y (self (session [run_bare; run_blank])) = None
  ∧ yields "metrics" run_blank metrics_blank
  ∧ length (pd.setitem_columns (pd.columns metrics_blank) "experiment_id") < 2
  ∧ (load_experiment_data (H := sample_colors) (session [run_bare; run_blank])).2
    = Raise IndexError
  ∧ x (self (load_experiment_data (H := sample_colors)
               (session [run_bare; run_blank])).1) = Some "experiment_id".
Proof.
  assert (H1 : experiments (self (session [run_bare; run_blank]))
               = Some ([run_bare] ++ run_blank :: [])) by reflexivity.
  assert (H2 : y (self (session [run_bare; run_blank])) = None) by reflexivity.
  assert (H3 : Forall (lacks (dataframe_name (self (session [run_bare; run_blank]))))
                 [run_bare]) by (repeat constructor; eexists; reflexivity).
  assert (H4 : yields (dataframe_name (self (session [run_bare; run_blank])))
                 run_blank metrics_blank) by (eexists; split; reflexivity).
  assert (H5 : length (pd.setitem_columns (pd.columns metrics_blank) "experiment_id") < 2)
    by (vm_compute; lia).
  split; [exact H1|]. split; [exact H2|]. split; [exact H4|]. split; [exact H5|].
  destruct (load_without_second_column (H := sample_colors) _ _ _ _ _ H1 H2 H3 H4 H5)
    as (Hex & Hx & _).
  exact (conj Hex Hx).
Defined.



Lemma render_postprocessing_witness :
  update_dataframe_plot (H := sample_colors) true [DNone; DList ["bbbbbbbb-2222"]] loaded
  = (loaded, Ok (shown_b, "showing dataframe 'metrics' over 1 experiment"))
  ∧ margin_t shown_b = Some 30%Z
  ∧ plot_bgcolor shown_b = Some "background-blue".
Proof.
  assert (H1 : update_dataframe_plot (H := sample_colors) true
                 [DNone; DList ["bbbbbbbb-2222"]] loaded
               = (loaded, Ok (shown_b, "showing dataframe 'metrics' over 1 experiment")))
    by (vm_compute; reflexivity).
  split; [exact H1|].
  destruct (render_postprocessing (H := sample_colors) _ _ _ _ _ _ H1)
    as (table & raw & _ & Hm & Hb & _).
  exact (conj Hm Hb).
Defined.

Lemma render_nameless_trace_witness :
  selected_row_ids false [DNone] loaded_bare = (loaded_bare, Ok ["aaaaaaaa-1111"])
  ∧ filtered_data ["aaaaaaaa-1111"] loaded_bare = (loaded_bare, Ok (tagged run_a metrics_a))
  ∧ update_dataframe_plot (H := sample_colors) false [DNone] loaded_bare
    = (loaded_bare, Raise TypeError).
Proof.
  assert (H1 : selected_row_ids false [DNone] loaded_bare
               = (loaded_bare, Ok ["aaaaaaaa-1111"])) by (vm_compute; reflexivity).
  assert (H2 : filtered_data ["aaaaaaaa-1111"] loaded_bare
               = (loaded_bare, Ok (tagged run_a metrics_a))) by (vm_compute; reflexivity).
  split; [exact H1|]. split; [exact H2|].
  apply (render_nameless_trace (H := sample_colors) false [DNone] loaded_bare
           ["aaaaaaaa-1111"] (tagged run_a metrics_a)
           {| data := [ {| name := None; points := [] |} ];
              margin_t := None; plot_bgcolor := None |} H1 H2).
  - vm_compute. reflexivity.
  - by left.
Defined.

Lemma render_after_failed_load_witness :
  experiments (self (session [run_bare; run_bare])) = Some [run_bare; run_bare]
  ∧ Forall (lacks "metrics") [run_bare; run_bare]
  ∧ (update_dataframe_plot (H := sample_colors) false [DNone]
       (load_experiment_data (H := sample_colors) (session [run_bare; run_bare])).1).2
    = Raise TypeError.
Proof.
  assert (H1 : experiments (self (session [run_bare; run_bare]))
               = Some [run_bare; run_bare]) by reflexivity.
  assert (H2 : Forall (lacks (dataframe_name (self (session [run_bare; run_bare]))))
                 [run_bare; run_bare]) by (repeat constructor; eexists; reflexivity).
  split; [exact H1|]. split; [exact H2|].
  by rewrite (render_after_failed_load (H := sample_colors) _ _ false [DNone] H1 H2 I).
Defined.


Lemma experiments_left_unset_witness :
  experiments (self (fresh (init "metrics" None line_plot None None None) initial_dicts))
  = None
  ∧ (layout (H := sample_colors)
       (fresh (init "metrics" None line_plot None None None) initial_dicts)).2
    = Raise TypeError.
Proof.
  assert (H1 : experiments (self (fresh (init "metrics" None line_plot None None None)
                                    initial_dicts)) = None) by reflexivity.
  split; [exact H1|].
  exact (proj1 (experiments_left_unset (H := sample_colors) _ H1)).
Defined.

Lemma load_raises_only_witness :
  load_experiment_data (H := sample_colors) (session [run_a; run_broken; run_b])
  = ((load_experiment_data (H := sample_colors) (session [run_a; run_broken; run_b])).1,
     Raise (Foreign "FileNotFoundError"))
  ∧ ∃ es e h,
      experiments (self (session [run_a; run_broken; run_b])) = Some es ∧ e ∈ es
      ∧ Experiment.dataframe e "metrics" = Ok h
      ∧ Dataframe.get_data h = Raise (Foreign "FileNotFoundError").
Proof.
  assert (H1 : load_experiment_data (H := sample_colors) (session [run_a; run_broken; run_b])
               = ((load_experiment_data (H := sample_colors)
                     (session [run_a; run_broken; run_b])).1,
                  Raise (Foreign "FileNotFoundError"))) by (vm_compute; reflexivity).
  split; [exact H1|].
  destruct (load_raises_only (H := sample_colors) _ _ _ H1)
    as [[? _]|[?|[?|[?|Hex]]]]; [discriminate..|exact Hex].
Defined.

Lemma load_injects_defaults_witness :
  experiments (self (session [run_a; run_b])) = Some [run_a; run_b]
  ∧ Forall2 (fetches "metrics") [run_a; run_b] [Some metrics_a; Some metrics_b]
  ∧ deref default_kwargs
      (load_experiment_data (H := sample_colors) (session [run_a; run_b])).1 !! "color"
    = Some (KwStr "experiment_id")
  ∧ deref default_kwargs
      (load_experiment_data (H := sample_colors) (session [run_a; run_b])).1
    !! "color_discrete_sequence"
    = Some (KwSeq ["blue-0"; "blue-1"]).
Proof.
  assert (H1 : experiments (self (session [run_a; run_b])) = Some [run_a; run_b])
    by reflexivity.
  assert (H2 : Forall2 (fetches "metrics") [run_a; run_b] [Some metrics_a; Some metrics_b]).
  { constructor; [eexists; split; reflexivity|].
    constructor; [eexists; split; reflexivity|constructor]. }
  assert (H3 : Forall (λ t, y_resolvable (self (session [run_a; run_b])) (pd.columns t))
                 (omap id [Some metrics_a; Some metrics_b]))
    by (repeat constructor; right; vm_compute; lia).
  split; [exact H1|]. split; [exact H2|].
  destruct (load_injects_defaults (H := sample_colors) _ _ _ H1 H2 H3) as (Hc & Hq & _).
  exact (conj Hc Hq).
Defined.
